(** * Unraid GraphQL API client: a shallow embedding of [unraid_api_client.py]

    The client is a thin layer over the [requests] HTTP library.  The
    embedding keeps the program's own logic (redirect discovery, the query
    executor, the operation catalog and the command-line dispatcher of
    [main]) executable, and threads the two effects the program has, the
    HTTP exchanges and the lines printed on standard output, through an
    explicit world state.  What the remote server and the [requests]
    library answer is given by an environment. *)

From Stdlib Require Import ZArith String Ascii List Bool Lia.
From stdpp Require Import base option list gmap strings pretty.

Local Open Scope Z_scope.

(** ** Strings *)

(** The double quote character, for query texts that embed quoted values. *)
Definition dq : string := String "034"%char EmptyString.

(** [str.lower] on the ASCII range, as used for HTTP header names. *)
Definition lower_char (c : ascii) : ascii :=
  let n := nat_of_ascii c in
  if (Nat.leb 65 n && Nat.leb n 90)%bool then ascii_of_nat (n + 32) else c.

Fixpoint lower (s : string) : string :=
  match s with
  | EmptyString => EmptyString
  | String c r => String (lower_char c) (lower r)
  end.

(** Truth value of an [Optional[str]]: [None] and the empty string are false. *)
Definition truthy_str (o : option string) : bool :=
  match o with
  | Some (String _ _) => true
  | _ => false
  end.

(** [str(o)] for an [Optional[str]], as [%s] and f-strings format it. *)
Definition str_of (o : option string) : string :=
  match o with
  | Some s => s
  | None => "None"
  end.

(** ** Python dictionaries with string keys, in insertion order *)

Module PyDict.
Section Ops.
Context {V : Type}.

Fixpoint get (k : string) (d : list (string * V)) : option V :=
  match d with
  | [] => None
  | (k', v) :: r => if String.eqb k k' then Some v else get k r
  end.

(** [d[k] = v]: an existing key keeps its position, a new one goes last. *)
Fixpoint set (k : string) (v : V) (d : list (string * V)) : list (string * V) :=
  match d with
  | [] => [(k, v)]
  | (k', v') :: r =>
      if String.eqb k k' then (k, v) :: r else (k', v') :: set k v r
  end.
End Ops.
End PyDict.

(** ** The [CaseInsensitiveDict] of [requests]

    Header collections of [requests] (a response's headers, a session's
    headers) are keyed by the lower-cased name and remember the spelling of
    the last assignment. *)

Module CIDict.
Abbreviation t := (gmap string (string * string)).

Definition set (k v : string) (d : t) : t := <[lower k := (k, v)]> d.

Definition get (k : string) (d : t) : option string := snd <$> d !! lower k.

Definition of_list (l : list (string * string)) : t :=
  fold_left (fun d kv => set (fst kv) (snd kv) d) l ∅.
End CIDict.

(** ** JSON documents *)

#[local] Unset Elimination Schemes.
Inductive JSON : Type :=
| JNull
| JBool (b : bool)
| JNumber (literal : string)
| JString (s : string)
| JList (items : list JSON)
| JDict (fields : list (string * JSON)).
#[local] Set Elimination Schemes.

(** ** HTTP exchanges *)

(** Outcome of [response.json()]: the decoded document, or the message of
    the decoder's error. *)
Inductive JsonBody : Type :=
| JsonOk (doc : JSON)
| JsonInvalid (msg : string).

Record Response : Type := mkResponse {
  status_code : Z;
  reason : string;
  url : string;
  resp_headers : CIDict.t;
  text : string;
  json_body : JsonBody
}.

Inductive Method : Type := GET | POST.

Record Request : Type := mkRequest {
  req_method : Method;
  req_url : string;
  req_headers : CIDict.t;
  req_json : option (gmap string JSON);
  req_allow_redirects : bool;
  req_verify : bool;
  req_timeout : option Z;
  req_max_redirects : Z
}.

(** Exceptions the program deals with: [requests.exceptions.RequestException]
    (message and optional response), [json.JSONDecodeError], and any other
    [Exception]. *)
Inductive Exn : Type :=
| RequestException (msg : string) (response : option Response)
| JSONDecodeError (msg : string)
| OtherException (msg : string).

(** What the network gives back for one request. *)
Inductive NetResult : Type :=
| NetResponse (r : Response)
| NetFailure (msg : string) (response : option Response).

(** The environment of a run: the answer of the network to each request
    (which may depend on the requests sent before it), the default headers a
    fresh [requests] session carries, and whether the installed [requests]
    raises its own [JSONDecodeError], a [RequestException], from
    [response.json()] (2.27 and later) or lets [json.JSONDecodeError] through. *)
Record Env : Type := mkEnv {
  transport : list Request -> Request -> NetResult;
  session_default_headers : CIDict.t;
  json_error_is_request_exception : bool
}.

(** Standard output: plain lines, and documents printed by
    [json.dumps(data, indent=2)]. *)
Inductive Output : Type :=
| OutLine (s : string)
| OutJson (doc : JSON).

Record World : Type := mkWorld {
  sent : list Request;
  stdout : list Output
}.

Definition empty_world : World := mkWorld [] [].

(** ** A state and exception monad over the world *)

Inductive Outcome (A : Type) : Type :=
| Returned (a : A)
| Raised (e : Exn).
Arguments Returned {A} a.
Arguments Raised {A} e.

Definition M (A : Type) : Type := World -> Outcome A * World.

Definition ret {A} (a : A) : M A := fun w => (Returned a, w).

Definition bind {A B} (m : M A) (k : A -> M B) : M B :=
  fun w => match m w with
           | (Returned a, w') => k a w'
           | (Raised e, w') => (Raised e, w')
           end.

Definition raise {A} (e : Exn) : M A := fun w => (Raised e, w).

Definition try_except {A} (m : M A) (handler : Exn -> M A) : M A :=
  fun w => match m w with
           | (Returned a, w') => (Returned a, w')
           | (Raised e, w') => handler e w'
           end.

Declare Scope py_scope.
Delimit Scope py_scope with py.
Notation "x <- m ;; k" := (bind m (fun x => k))
  (at level 100, m at next level, right associativity) : py_scope.
Notation "m ;;; k" := (bind m (fun _ => k))
  (at level 100, right associativity) : py_scope.
Local Open Scope py_scope.

Definition print (s : string) : M unit :=
  fun w => (Returned tt, mkWorld (sent w) (stdout w ++ [OutLine s])).

Definition print_json (doc : JSON) : M unit :=
  fun w => (Returned tt, mkWorld (sent w) (stdout w ++ [OutJson doc])).

Section Client.
Variable env : Env.

(** One HTTP exchange: the request is recorded, the network answers. *)
Definition http (r : Request) : M Response :=
  fun w =>
    let w' := mkWorld (sent w ++ [r]) (stdout w) in
    match transport env (sent w) r with
    | NetResponse resp => (Returned resp, w')
    | NetFailure msg resp => (Raised (RequestException msg resp), w')
    end.

(** *** The client object *)

Record UnraidGraphQLClient : Type := mkClient {
  server_ip : string;
  api_key : string;
  port : Z;
  base_url : string;
  endpoint : string;
  redirect_url : option string;
  headers : list (string * string)
}.

Definition set_endpoint (self : UnraidGraphQLClient) (e : string) :=
  mkClient (server_ip self) (api_key self) (port self) (base_url self)
           e (redirect_url self) (headers self).

Definition set_redirect_url (self : UnraidGraphQLClient) (r : option string) :=
  mkClient (server_ip self) (api_key self) (port self) (base_url self)
           (endpoint self) r (headers self).

Definition set_header (self : UnraidGraphQLClient) (k v : string) :=
  mkClient (server_ip self) (api_key self) (port self) (base_url self)
           (endpoint self) (redirect_url self) (PyDict.set k v (headers self)).

(** *** The pattern [https?://([^/]+)] under [re.search] *)

Fixpoint strip_prefix (p s : string) : option string :=
  match p with
  | EmptyString => Some s
  | String a p' =>
      match s with
      | String b s' => if Ascii.eqb a b then strip_prefix p' s' else None
      | EmptyString => None
      end
  end.

(** The longest prefix without a slash: the greedy [[^/]+]. *)
Fixpoint take_non_slash (s : string) : string :=
  match s with
  | EmptyString => EmptyString
  | String c r => if Ascii.eqb c "/"%char then EmptyString else String c (take_non_slash r)
  end.

(** A match that starts at the head of [s]; the result is group 1. *)
Definition match_domain_here (s : string) : option string :=
  match strip_prefix "http" s with
  | None => None
  | Some r =>
      let with_s := match r with
                    | String "s"%char r' => strip_prefix "://" r'
                    | _ => None
                    end in
      let rest := match with_s with
                  | Some x => Some x
                  | None => strip_prefix "://" r
                  end in
      match rest with
      | Some x =>
          match take_non_slash x with
          | EmptyString => None
          | d => Some d
          end
      | None => None
      end
  end.

(** [re.search]: the leftmost position at which the pattern matches. *)
Fixpoint search_domain (s : string) : option string :=
  match match_domain_here s with
  | Some d => Some d
  | None =>
      match s with
      | EmptyString => None
      | String _ r => search_domain r
      end
  end.

(** *** Redirect discovery *)

(** [requests.get(url, allow_redirects=False)]: a plain GET through a fresh
    session, without payload, certificate check on, no timeout. *)
Definition probe_request (u : string) : Request :=
  mkRequest GET u (session_default_headers env) None false true None 30.

Definition requests_get (u : string) : M Response := http (probe_request u).

(** Discover and store the redirect URL if the server uses one. Only the
    probe itself can raise, before anything is assigned, so the handler
    goes on with the client as it was. *)
Definition _discover_redirect_url (self : UnraidGraphQLClient) : M UnraidGraphQLClient :=
  try_except
    (response <- requests_get (endpoint self) ;;
     match status_code response =? 302, CIDict.get "Location" (resp_headers response) with
     | true, Some location =>
         let self := set_redirect_url self (Some location) in
         print ("Discovered redirect URL: " +:+ location) ;;;
         let self := set_endpoint self location in
         match search_domain location with
         | Some domain =>
             let self := set_header self "Host" domain in
             let self := set_header self "Origin" ("https://" +:+ domain) in
             let self := set_header self "Referer" ("https://" +:+ domain +:+ "/dashboard") in
             ret self
         | None => ret self
         end
     | _, _ => ret self
     end)
    (fun e =>
       match e with
       | RequestException msg _ =>
           print ("Warning: Could not discover redirect URL: " +:+ msg) ;;;
           ret self
       | _ => raise e
       end).

Definition initial_headers (api_key : string) : list (string * string) :=
  [("Content-Type", "application/json");
   ("x-api-key", api_key);
   ("Accept", "application/json")].

(** The constructor: the fields, the initial headers, then discovery. *)
Definition __init__ (server_ip api_key : string) (port : Z) : M UnraidGraphQLClient :=
  let base_url := "http://" +:+ server_ip +:+ ":" +:+ pretty port in
  _discover_redirect_url
    (mkClient server_ip api_key port base_url (base_url +:+ "/graphql") None
              (initial_headers api_key)).

(** *** The query executor *)

(** [Response.raise_for_status] of [requests]: an [HTTPError] for the
    4xx and 5xx statuses, nothing otherwise. *)
Definition http_error_msg (r : Response) : option string :=
  if (400 <=? status_code r) && (status_code r <? 500) then
    Some (pretty (status_code r) +:+ " Client Error: " +:+ reason r +:+ " for url: " +:+ url r)
  else if (500 <=? status_code r) && (status_code r <? 600) then
    Some (pretty (status_code r) +:+ " Server Error: " +:+ reason r +:+ " for url: " +:+ url r)
  else None.

Definition raise_for_status (r : Response) : M unit :=
  match http_error_msg r with
  | Some msg => raise (RequestException msg (Some r))
  | None => ret tt
  end.

(** [Response.json] *)
Definition response_json (r : Response) : M JSON :=
  match json_body r with
  | JsonOk doc => ret doc
  | JsonInvalid msg =>
      if json_error_is_request_exception env
      then raise (RequestException msg None)
      else raise (JSONDecodeError msg)
  end.

(** The headers of the session of one call: the defaults of a fresh
    session, then every header of the client in order. *)
Definition session_headers (self : UnraidGraphQLClient) : CIDict.t :=
  fold_left (fun h kv => CIDict.set (fst kv) (snd kv) h)
            (headers self) (session_default_headers env).

Definition build_payload (query : string) (variables : option (list (string * JSON)))
  : gmap string JSON :=
  let payload : gmap string JSON := {[ "query" := JString query ]} in
  match variables with
  | Some ((_ :: _) as vars) => <[ "variables" := JDict vars ]> payload
  | _ => payload
  end.

Definition error_record (msg : string) : JSON := JDict [("error", JString msg)].

(** [session.post(self.endpoint, json=payload, verify=False, timeout=15)]
    on a session with [max_redirects = 5]. *)
Definition post_request (self : UnraidGraphQLClient) (payload : gmap string JSON) : Request :=
  mkRequest POST (endpoint self) (session_headers self) (Some payload) true false (Some 15) 5.

(** Execute a GraphQL query against the Unraid API. *)
Definition execute_query (self : UnraidGraphQLClient) (query : string)
           (variables : option (list (string * JSON))) : M JSON :=
  let payload := build_payload query variables in
  try_except
    (response <- http (post_request self payload) ;;
     raise_for_status response ;;;
     response_json response)
    (fun e =>
       match e with
       | RequestException msg resp =>
           print ("Error making the request: " +:+ msg) ;;;
           match resp with
           | Some r =>
               print ("Response status: " +:+ pretty (status_code r)) ;;;
               print ("Response body: " +:+ text r)
           | None => ret tt
           end ;;;
           ret (error_record msg)
       | _ => raise e
       end).
(** *** The operation catalog *)

(** Get detailed server information including CPU, memory, and system details. *)
Definition get_server_info_query : string :=
  "
        query {
            info {
                os {
                    platform
                    distro
                    release
                    kernel
                    arch
                    hostname
                    uptime
                }
                cpu {
                    manufacturer
                    brand
                    vendor
                    family
                    model
                    speed
                    speedmin
                    speedmax
                    cores
                    threads
                    processors
                    socket
                    cache
                }
                memory {
                    total
                    free
                    used
                    active
                    available
                    buffcache
                    swaptotal
                    swapused
                    swapfree
                    layout {
                        size
                        bank
                        type
                        clockSpeed
                        manufacturer
                    }
                }
                baseboard {
                    manufacturer
                    model
                    version
                    serial
                }
                system {
                    manufacturer
                    model
                    version
                    serial
                }
                versions {
                    unraid
                    kernel
                    docker
                }
            }
        }
        ".

Definition get_server_info (self : UnraidGraphQLClient) : M JSON :=
  execute_query self get_server_info_query None.

(** Get detailed array status including all disk types. *)
Definition get_array_status_query : string :=
  "
        query {
            array {
                state
                capacity {
                    kilobytes {
                        free
                        used
                        total
                    }
                    disks {
                        free
                        used
                        total
                    }
                }
                boot {
                    id
                    name
                    device
                    size
                    temp
                    rotational
                    fsSize
                    fsFree
                    fsUsed
                    type
                }
                parities {
                    id
                    name
                    device
                    size
                    temp
                    status
                    rotational
                    type
                }
                disks {
                    id
                    name
                    device
                    size
                    status
                    type
                    temp
                    rotational
                    fsSize
                    fsFree
                    fsUsed
                    numReads
                    numWrites
                    numErrors
                }
                caches {
                    id
                    name
                    device
                    size
                    temp
                    status
                    rotational
                    fsSize
                    fsFree
                    fsUsed
                    type
                }
            }
        }
        ".

Definition get_array_status (self : UnraidGraphQLClient) : M JSON :=
  execute_query self get_array_status_query None.

(** Get detailed information about Docker containers. *)
Definition get_docker_containers_query : string :=
  "
        query {
            docker {
                containers {
                    id
                    names
                    image
                    state
                    status
                    autoStart
                    ports {
                        ip
                        privatePort
                        publicPort
                        type
                    }
                }
            }
        }
        ".

Definition get_docker_containers (self : UnraidGraphQLClient) : M JSON :=
  execute_query self get_docker_containers_query None.

(** Get detailed information about all disks. *)
Definition get_disks_info_query : string :=
  "
        query {
            disks {
                device
                name
                type
                size
                vendor
                temperature
                smartStatus
            }
        }
        ".

Definition get_disks_info (self : UnraidGraphQLClient) : M JSON :=
  execute_query self get_disks_info_query None.

(** Get network interface information. *)
Definition get_network_info_query : string :=
  "
        query {
            network {
                iface
                ifaceName
                ipv4
                ipv6
                mac
                operstate
                type
                duplex
                speed
                accessUrls {
                    type
                    name
                    ipv4
                    ipv6
                }
            }
        }
        ".

Definition get_network_info (self : UnraidGraphQLClient) : M JSON :=
  execute_query self get_network_info_query None.

(** Get detailed network interface information including all devices. *)
Definition get_detailed_network_info_query : string :=
  "
        query {
            info {
                devices {
                    network {
                        id
                        iface
                        ifaceName
                        ipv4
                        ipv6
                        mac
                        internal
                        operstate
                        type
                        duplex
                        mtu
                        speed
                        carrierChanges
                    }
                }
            }
        }
        ".

Definition get_detailed_network_info (self : UnraidGraphQLClient) : M JSON :=
  execute_query self get_detailed_network_info_query None.

(** Get information about network shares. *)
Definition get_shares_query : string :=
  "
        query {
            shares {
                name
                comment
                free
                size
                used
            }
        }
        ".

Definition get_shares (self : UnraidGraphQLClient) : M JSON :=
  execute_query self get_shares_query None.

(** Get information about virtual machines. *)
Definition get_vms_query : string :=
  "
        query {
            vms {
                domain {
                    uuid
                    name
                    state
                }
            }
        }
        ".

Definition get_vms (self : UnraidGraphQLClient) : M JSON :=
  execute_query self get_vms_query None.

(** Get parity check history. *)
Definition get_parity_history_query : string :=
  "
        query {
            parityHistory {
                date
                duration
                speed
                status
                errors
            }
        }
        ".

Definition get_parity_history (self : UnraidGraphQLClient) : M JSON :=
  execute_query self get_parity_history_query None.

(** Get system variables and settings. *)
Definition get_vars_query : string :=
  "
        query {
            vars {
                version
                name
                timeZone
                security
                workgroup
                domain
                sysModel
                useSsl
                port
                portssl
                startArray
                spindownDelay
                shareCount
                shareSmbCount
                shareNfsCount
                shareAfpCount
            }
        }
        ".

Definition get_vars (self : UnraidGraphQLClient) : M JSON :=
  execute_query self get_vars_query None.

(** Reboot the Unraid system. *)
Definition reboot_system_mutation : string :=
  "
        mutation {
            reboot
        }
        ".

Definition reboot_system (self : UnraidGraphQLClient) : M JSON :=
  execute_query self reboot_system_mutation None.

(** Shutdown the Unraid system. *)
Definition shutdown_system_mutation : string :=
  "
        mutation {
            shutdown
        }
        ".

Definition shutdown_system (self : UnraidGraphQLClient) : M JSON :=
  execute_query self shutdown_system_mutation None.

(** Start the Unraid array. *)
Definition start_array_mutation : string :=
  "
        mutation {
            startArray {
                state
            }
        }
        ".

Definition start_array (self : UnraidGraphQLClient) : M JSON :=
  execute_query self start_array_mutation None.

(** Stop the Unraid array. *)
Definition stop_array_mutation : string :=
  "
        mutation {
            stopArray {
                state
            }
        }
        ".

Definition stop_array (self : UnraidGraphQLClient) : M JSON :=
  execute_query self stop_array_mutation None.

(** Pause a running parity check. *)
Definition pause_parity_check_mutation : string :=
  "
        mutation {
            pauseParityCheck
        }
        ".

Definition pause_parity_check (self : UnraidGraphQLClient) : M JSON :=
  execute_query self pause_parity_check_mutation None.

(** Resume a paused parity check. *)
Definition resume_parity_check_mutation : string :=
  "
        mutation {
            resumeParityCheck
        }
        ".

Definition resume_parity_check (self : UnraidGraphQLClient) : M JSON :=
  execute_query self resume_parity_check_mutation None.

(** Cancel a running parity check. *)
Definition cancel_parity_check_mutation : string :=
  "
        mutation {
            cancelParityCheck
        }
        ".

Definition cancel_parity_check (self : UnraidGraphQLClient) : M JSON :=
  execute_query self cancel_parity_check_mutation None.

(** Get information about the current user. *)
Definition get_users_query : string :=
  "
        query {
            me {
                id
                name
                description
                roles
                permissions {
                    resource
                    actions
                }
            }
        }
        ".

Definition get_users (self : UnraidGraphQLClient) : M JSON :=
  execute_query self get_users_query None.

(** Get all API keys. *)
Definition get_api_keys_query : string :=
  "
        query {
            apiKeys {
                id
                name
                description
                roles
                createdAt
                permissions {
                    resource
                    actions
                }
            }
        }
        ".

Definition get_api_keys (self : UnraidGraphQLClient) : M JSON :=
  execute_query self get_api_keys_query None.

Definition start_parity_check_mutation (correct : bool) : string :=
  "
        mutation {
            startParityCheck(correct: " +:+ (if correct then "true" else "false") +:+ ")
        }
        ".

Definition add_user_mutation (name password description : string) : string :=
  "
        mutation {
            addUser(input: {
                name: " +:+ dq +:+ name +:+ dq +:+ ",
                password: " +:+ dq +:+ password +:+ dq +:+ ",
                description: " +:+ dq +:+ description +:+ dq +:+ "
            }) {
                id
                name
                description
                roles
            }
        }
        ".

Definition delete_user_mutation (name : string) : string :=
  "
        mutation {
            deleteUser(input: {
                name: " +:+ dq +:+ name +:+ dq +:+ "
            }) {
                id
                name
            }
        }
        ".

Definition create_api_key_mutation (name description roles_str : string) : string :=
  "
        mutation {
            createApiKey(input: {
                name: " +:+ dq +:+ name +:+ dq +:+ ",
                description: " +:+ dq +:+ description +:+ dq +:+ roles_str +:+ "
            }) {
                id
                key
                name
                description
                roles
                createdAt
            }
        }
        ".

Definition create_notification_mutation (title subject description importance link_str : string) : string :=
  "
        mutation {
            createNotification(input: {
                title: " +:+ dq +:+ title +:+ dq +:+ ",
                subject: " +:+ dq +:+ subject +:+ dq +:+ ",
                description: " +:+ dq +:+ description +:+ dq +:+ ",
                importance: " +:+ importance +:+ link_str +:+ "
            }) {
                id
                title
                subject
                description
                importance
                timestamp
                formattedTimestamp
            }
        }
        ".

Definition get_notifications_query (notification_type importance_str : string) (limit : Z) : string :=
  "
        query {
            notifications {
                list(filter: {
                    type: " +:+ notification_type +:+ importance_str +:+ ",
                    offset: 0,
                    limit: " +:+ pretty limit +:+ "
                }) {
                    id
                    title
                    subject
                    description
                    importance
                    link
                    type
                    timestamp
                    formattedTimestamp
                }
                overview {
                    unread {
                        info
                        warning
                        alert
                        total
                    }
                    archive {
                        info
                        warning
                        alert
                        total
                    }
                }
            }
        }
        ".

Definition archive_notification_mutation (notification_id : string) : string :=
  "
        mutation {
            archiveNotification(id: " +:+ dq +:+ notification_id +:+ dq +:+ ") {
                id
                title
                type
            }
        }
        ".

Definition archive_all_notifications_mutation (importance_str : string) : string :=
  "
        mutation {
            archiveAll" +:+ importance_str +:+ " {
                unread {
                    total
                }
                archive {
                    total
                }
            }
        }
        ".

Definition setup_remote_access_mutation (access_type forward_type_str port_str : string) : string :=
  "
        mutation {
            setupRemoteAccess(input: {
                accessType: " +:+ access_type +:+ forward_type_str +:+ port_str +:+ "
            })
        }
        ".

(** Start a parity check. Set correct=True to correct errors. *)
Definition start_parity_check (self : UnraidGraphQLClient) (correct : bool) : M JSON :=
  execute_query self (start_parity_check_mutation correct) None.

(** Add a new user to the system. *)
Definition add_user (self : UnraidGraphQLClient) (name password description : string) : M JSON :=
  execute_query self (add_user_mutation name password description) None.

(** Delete a user from the system. *)
Definition delete_user (self : UnraidGraphQLClient) (name : string) : M JSON :=
  execute_query self (delete_user_mutation name) None.

(** Create a new API key. *)
Definition create_api_key (self : UnraidGraphQLClient) (name description : string)
           (roles : option (list string)) : M JSON :=
  let roles_str :=
    match roles with
    | Some ((_ :: _) as rs) => ", roles: [" +:+ String.concat ", " rs +:+ "]"
    | _ => EmptyString
    end in
  execute_query self (create_api_key_mutation name description roles_str) None.

(** Create a new notification. *)
Definition create_notification (self : UnraidGraphQLClient)
           (title subject description importance : string) (link : option string) : M JSON :=
  let link_str :=
    if truthy_str link then ", link: " +:+ dq +:+ str_of link +:+ dq else EmptyString in
  execute_query self
    (create_notification_mutation title subject description importance link_str) None.

(** Get notifications. *)
Definition get_notifications (self : UnraidGraphQLClient) (notification_type : string)
           (importance : option string) (limit : Z) : M JSON :=
  let importance_str :=
    if truthy_str importance then ", importance: " +:+ str_of importance else EmptyString in
  execute_query self (get_notifications_query notification_type importance_str limit) None.

(** Archive a notification. *)
Definition archive_notification (self : UnraidGraphQLClient) (notification_id : string) : M JSON :=
  execute_query self (archive_notification_mutation notification_id) None.

(** Archive all notifications. *)
Definition archive_all_notifications (self : UnraidGraphQLClient)
           (importance : option string) : M JSON :=
  let importance_str :=
    if truthy_str importance then "(importance: " +:+ str_of importance +:+ ")" else EmptyString in
  execute_query self (archive_all_notifications_mutation importance_str) None.

(** Configure remote access to the server. *)
Definition setup_remote_access (self : UnraidGraphQLClient) (access_type : string)
           (forward_type : option string) (remote_port : option Z) : M JSON :=
  let forward_type_str :=
    if truthy_str forward_type then ", forwardType: " +:+ str_of forward_type else EmptyString in
  let port_str :=
    match remote_port with
    | Some p => if p =? 0 then EmptyString else ", port: " +:+ pretty p
    | None => EmptyString
    end in
  execute_query self (setup_remote_access_mutation access_type forward_type_str port_str) None.

(** Run a custom GraphQL query. *)
Definition run_custom_query (self : UnraidGraphQLClient) (query_string : string)
           (variables : option (list (string * JSON))) : M JSON :=
  execute_query self query_string variables.

(** *** Operations the remote schema does not offer

    Container and virtual machine control are kept for a future API: each
    returns its fixed record at once. *)

Definition start_docker_container (self : UnraidGraphQLClient) (container_id : string) : M JSON :=
  ret (JDict [("error", JString "Docker container control operations are not currently supported by the Unraid GraphQL API")]).

Definition stop_docker_container (self : UnraidGraphQLClient) (container_id : string) : M JSON :=
  ret (JDict [("error", JString "Docker container control operations are not currently supported by the Unraid GraphQL API")]).

Definition restart_docker_container (self : UnraidGraphQLClient) (container_id : string) : M JSON :=
  ret (JDict [("error", JString "Docker container control operations are not currently supported by the Unraid GraphQL API")]).

Definition start_vm (self : UnraidGraphQLClient) (vm_uuid : string) : M JSON :=
  ret (JDict [("error", JString "VM control operations are not currently supported by the Unraid GraphQL API")]).

Definition stop_vm (self : UnraidGraphQLClient) (vm_uuid : string) (force : bool) : M JSON :=
  ret (JDict [("error", JString "VM control operations are not currently supported by the Unraid GraphQL API")]).

Definition pause_vm (self : UnraidGraphQLClient) (vm_uuid : string) : M JSON :=
  ret (JDict [("error", JString "VM control operations are not currently supported by the Unraid GraphQL API")]).

Definition resume_vm (self : UnraidGraphQLClient) (vm_uuid : string) : M JSON :=
  ret (JDict [("error", JString "VM control operations are not currently supported by the Unraid GraphQL API")]).

(** Print the API response in a readable format. *)
Definition pretty_print_response (self : UnraidGraphQLClient) (data : JSON) : M unit :=
  print_json data.
End Client.

(** ** The command line *)

(** The namespace [argparse] hands to [main]. Options that take a value are
    [None] when absent; [--query] and [--importance] have defaults. *)
Module Args.
Record t : Type := mk {
  ip : string;
  key : string;
  port : Z;
  query : string;
  direct : bool;
  custom : option string;
  reboot : bool;
  shutdown : bool;
  start_array : bool;
  stop_array : bool;
  start_parity : bool;
  correct_parity : bool;
  pause_parity : bool;
  resume_parity : bool;
  cancel_parity : bool;
  add_user : bool;
  username : option string;
  password : option string;
  description : option string;
  delete_user : bool;
  create_apikey : bool;
  apikey_name : option string;
  apikey_roles : option string;
  create_notification : bool;
  title : option string;
  subject : option string;
  message : option string;
  importance : string;
  link : option string;
  archive_notification : option string;
  archive_all : bool;
  setup_remote : bool;
  access_type : option string;
  forward_type : option string;
  remote_port : option Z;
  start_container : option string;
  stop_container : option string;
  restart_container : option string;
  start_vm : option string;
  stop_vm : option string;
  force_stop_vm : bool;
  pause_vm : option string;
  resume_vm : option string
}.
End Args.

(** [s.split(",")] *)
Fixpoint split_comma (s : string) : list string :=
  match s with
  | EmptyString => [EmptyString]
  | String c r =>
      if Ascii.eqb c ","%char then EmptyString :: split_comma r
      else match split_comma r with
           | h :: t => String c h :: t
           | [] => [String c EmptyString]
           end
  end.

(** Text is held as its UTF-8 bytes, as the string literals of Rocq are.
    [str.isspace] holds of the code points U+0009 to U+000D, U+001C to
    U+0020, U+0085, U+00A0, U+1680, U+2000 to U+200A, U+2028, U+2029, U+202F,
    U+205F and U+3000, whose encodings take one, two or three bytes. *)
Definition isspace_1 (a : ascii) : bool :=
  let n := nat_of_ascii a in
  ((Nat.leb 9 n && Nat.leb n 13) || (Nat.leb 28 n && Nat.leb n 32))%bool.

(** U+0085 is C2 85 and U+00A0 is C2 A0. *)
Definition isspace_2 (a b : ascii) : bool :=
  let x := nat_of_ascii a in
  let y := nat_of_ascii b in
  (Nat.eqb x 194 && (Nat.eqb y 133 || Nat.eqb y 160))%bool.

(** U+1680 is E1 9A 80; U+2000 to U+200A are E2 80 80 to E2 80 8A; U+2028,
    U+2029 and U+202F are E2 80 A8, E2 80 A9 and E2 80 AF; U+205F is
    E2 81 9F; U+3000 is E3 80 80. *)
Definition isspace_3 (a b c : ascii) : bool :=
  let x := nat_of_ascii a in
  let y := nat_of_ascii b in
  let z := nat_of_ascii c in
  ((Nat.eqb x 225 && Nat.eqb y 154 && Nat.eqb z 128)
   || (Nat.eqb x 226 && Nat.eqb y 128
       && ((Nat.leb 128 z && Nat.leb z 138)
           || Nat.eqb z 168 || Nat.eqb z 169 || Nat.eqb z 175))
   || (Nat.eqb x 226 && Nat.eqb y 129 && Nat.eqb z 159)
   || (Nat.eqb x 227 && Nat.eqb y 128 && Nat.eqb z 128))%bool.

(** [str.lstrip]: white space is dropped from the front, one code point at
    a time. *)
Fixpoint lstrip (s : string) : string :=
  match s with
  | EmptyString => EmptyString
  | String a r1 =>
      if isspace_1 a then lstrip r1
      else
        match r1 with
        | EmptyString => s
        | String b r2 =>
            if isspace_2 a b then lstrip r2
            else
              match r2 with
              | EmptyString => s
              | String c r3 => if isspace_3 a b c then lstrip r3 else s
              end
        end
  end.

(** A string that is white space throughout. *)
Fixpoint all_space (s : string) : bool :=
  match s with
  | EmptyString => true
  | String a r1 =>
      if isspace_1 a then all_space r1
      else
        match r1 with
        | EmptyString => false
        | String b r2 =>
            if isspace_2 a b then all_space r2
            else
              match r2 with
              | EmptyString => false
              | String c r3 => if isspace_3 a b c then all_space r3 else false
              end
        end
  end.

(** [str.rstrip]: the text is cut where the rest of it is white space
    throughout. *)
Fixpoint rstrip (s : string) : string :=
  match s with
  | EmptyString => EmptyString
  | String a r => if all_space s then EmptyString else String a (rstrip r)
  end.

Definition strip (s : string) : string := rstrip (lstrip s).

Definition nl : string := String "010"%char EmptyString.

(** [a or ""] for an optional string. *)
Definition or_empty (o : option string) : string :=
  if truthy_str o then str_of o else EmptyString.

Section Main.
Variable env : Env.

(** The pattern every action of [main] repeats: a banner, the call, the
    response pretty-printed. *)
Definition report (client : UnraidGraphQLClient) (banner : string) (call : M JSON) : M unit :=
  print banner ;;;
  response <- call ;;
  pretty_print_response client response.

Definition query_is (args : Args.t) (name : string) : bool :=
  String.eqb (Args.query args) name || String.eqb (Args.query args) "all".

(** The read queries chosen by [--query], in the order [main] runs them. *)
Definition read_queries (client : UnraidGraphQLClient) (args : Args.t) : M unit :=
  (if query_is args "info" then
     report client (nl +:+ "=== SERVER INFORMATION ===") (get_server_info env client)
   else ret tt) ;;;
  (if query_is args "array" then
     report client (nl +:+ "=== ARRAY STATUS ===") (get_array_status env client)
   else ret tt) ;;;
  (if query_is args "docker" then
     report client (nl +:+ "=== DOCKER CONTAINERS ===") (get_docker_containers env client)
   else ret tt) ;;;
  (if query_is args "disks" then
     report client (nl +:+ "=== DISK INFORMATION ===") (get_disks_info env client)
   else ret tt) ;;;
  (if query_is args "network" then
     report client (nl +:+ "=== NETWORK INFORMATION ===") (get_network_info env client) ;;;
     report client (nl +:+ "=== DETAILED NETWORK INTERFACES ===")
            (get_detailed_network_info env client)
   else ret tt) ;;;
  (if query_is args "shares" then
     report client (nl +:+ "=== SHARES INFORMATION ===") (get_shares env client)
   else ret tt) ;;;
  (if query_is args "vms" then
     report client (nl +:+ "=== VIRTUAL MACHINES ===") (get_vms env client)
   else ret tt) ;;;
  (if query_is args "parity" then
     report client (nl +:+ "=== PARITY HISTORY ===") (get_parity_history env client)
   else ret tt) ;;;
  (if query_is args "vars" then
     report client (nl +:+ "=== SYSTEM VARIABLES ===") (get_vars env client)
   else ret tt) ;;;
  (if query_is args "users" then
     report client (nl +:+ "=== CURRENT USER ===") (get_users env client)
   else ret tt) ;;;
  (if query_is args "apikeys" then
     report client (nl +:+ "=== API KEYS ===") (get_api_keys env client)
   else ret tt) ;;;
  (if query_is args "notifications" then
     report client (nl +:+ "=== NOTIFICATIONS ===")
            (get_notifications env client "UNREAD" None 100)
   else ret tt).

(** The body of the [try] block of [main]: each test that succeeds runs its
    branch and returns; the read queries come last. *)
Definition dispatch (client : UnraidGraphQLClient) (args : Args.t) : M unit :=
  if Args.reboot args then
    report client (nl +:+ "=== REBOOTING SYSTEM ===") (reboot_system env client)
  else if Args.shutdown args then
    report client (nl +:+ "=== SHUTTING DOWN SYSTEM ===") (shutdown_system env client)
  else if Args.start_array args then
    report client (nl +:+ "=== STARTING ARRAY ===") (start_array env client)
  else if Args.stop_array args then
    report client (nl +:+ "=== STOPPING ARRAY ===") (stop_array env client)
  else if Args.start_parity args then
    report client (nl +:+ "=== STARTING PARITY CHECK ===") (start_parity_check env client false)
  else if Args.correct_parity args then
    report client (nl +:+ "=== STARTING PARITY CHECK WITH CORRECTION ===")
           (start_parity_check env client true)
  else if Args.pause_parity args then
    report client (nl +:+ "=== PAUSING PARITY CHECK ===") (pause_parity_check env client)
  else if Args.resume_parity args then
    report client (nl +:+ "=== RESUMING PARITY CHECK ===") (resume_parity_check env client)
  else if Args.cancel_parity args then
    report client (nl +:+ "=== CANCELLING PARITY CHECK ===") (cancel_parity_check env client)
  else if Args.add_user args then
    if negb (truthy_str (Args.username args)) || negb (truthy_str (Args.password args)) then
      print "Error: Username and password are required for adding a user"
    else
      report client (nl +:+ "=== ADDING USER: " +:+ str_of (Args.username args) +:+ " ===")
             (add_user env client (str_of (Args.username args)) (str_of (Args.password args))
                       (or_empty (Args.description args)))
  else if Args.delete_user args then
    if negb (truthy_str (Args.username args)) then
      print "Error: Username is required for deleting a user"
    else
      report client (nl +:+ "=== DELETING USER: " +:+ str_of (Args.username args) +:+ " ===")
             (delete_user env client (str_of (Args.username args)))
  else if Args.create_apikey args then
    if negb (truthy_str (Args.apikey_name args)) then
      print "Error: API key name is required"
    else
      let roles :=
        if truthy_str (Args.apikey_roles args)
        then Some (map strip (split_comma (str_of (Args.apikey_roles args))))
        else None in
      report client (nl +:+ "=== CREATING API KEY: " +:+ str_of (Args.apikey_name args) +:+ " ===")
             (create_api_key env client (str_of (Args.apikey_name args))
                             (or_empty (Args.description args)) roles)
  else if Args.create_notification args then
    if negb (truthy_str (Args.title args)) || negb (truthy_str (Args.subject args))
       || negb (truthy_str (Args.message args)) then
      print "Error: Title, subject, and message are required for creating a notification"
    else
      report client (nl +:+ "=== CREATING NOTIFICATION: " +:+ str_of (Args.title args) +:+ " ===")
             (create_notification env client (str_of (Args.title args)) (str_of (Args.subject args))
                                  (str_of (Args.message args)) (Args.importance args) (Args.link args))
  else if truthy_str (Args.archive_notification args) then
    report client
           (nl +:+ "=== ARCHIVING NOTIFICATION: " +:+ str_of (Args.archive_notification args)
               +:+ " ===")
           (archive_notification env client (str_of (Args.archive_notification args)))
  else if Args.archive_all args then
    report client (nl +:+ "=== ARCHIVING ALL NOTIFICATIONS ===")
           (archive_all_notifications env client
              (if negb (String.eqb (Args.importance args) "INFO")
               then Some (Args.importance args) else None))
  else if Args.setup_remote args then
    if negb (truthy_str (Args.access_type args)) then
      print "Error: Access type is required for setting up remote access"
    else
      report client
             (nl +:+ "=== SETTING UP REMOTE ACCESS: " +:+ str_of (Args.access_type args) +:+ " ===")
             (setup_remote_access env client (str_of (Args.access_type args)) (Args.forward_type args)
                                  (Args.remote_port args))
  else if truthy_str (Args.start_container args) then
    report client
           (nl +:+ "=== STARTING DOCKER CONTAINER: " +:+ str_of (Args.start_container args) +:+ " ===")
           (start_docker_container client (str_of (Args.start_container args)))
  else if truthy_str (Args.stop_container args) then
    report client
           (nl +:+ "=== STOPPING DOCKER CONTAINER: " +:+ str_of (Args.stop_container args) +:+ " ===")
           (stop_docker_container client (str_of (Args.stop_container args)))
  else if truthy_str (Args.restart_container args) then
    report client
           (nl +:+ "=== RESTARTING DOCKER CONTAINER: " +:+ str_of (Args.restart_container args)
               +:+ " ===")
           (restart_docker_container client (str_of (Args.restart_container args)))
  else if truthy_str (Args.start_vm args) then
    report client (nl +:+ "=== STARTING VM: " +:+ str_of (Args.start_vm args) +:+ " ===")
           (start_vm client (str_of (Args.start_vm args)))
  else if truthy_str (Args.stop_vm args) then
    report client (nl +:+ "=== STOPPING VM: " +:+ str_of (Args.stop_vm args) +:+ " ===")
           (stop_vm client (str_of (Args.stop_vm args)) (Args.force_stop_vm args))
  else if truthy_str (Args.pause_vm args) then
    report client (nl +:+ "=== PAUSING VM: " +:+ str_of (Args.pause_vm args) +:+ " ===")
           (pause_vm client (str_of (Args.pause_vm args)))
  else if truthy_str (Args.resume_vm args) then
    report client (nl +:+ "=== RESUMING VM: " +:+ str_of (Args.resume_vm args) +:+ " ===")
           (resume_vm client (str_of (Args.resume_vm args)))
  else if truthy_str (Args.custom args) then
    report client (nl +:+ "=== CUSTOM QUERY RESULT ===")
           (run_custom_query env client (str_of (Args.custom args)) None)
  else
    read_queries client args.

(** Client creation in [main]: the constructor, then the [--direct] reset. *)
Definition make_client (args : Args.t) : M UnraidGraphQLClient :=
  client <- __init__ env (Args.ip args) (Args.key args) (Args.port args) ;;
  if Args.direct args then
    let client :=
      set_endpoint client ("http://" +:+ Args.ip args +:+ ":" +:+ pretty (Args.port args) +:+ "/graphql") in
    ret (set_redirect_url client None)
  else ret client.

(** The [except] clauses that close [main]. *)
Definition main_handlers (e : Exn) : M unit :=
  match e with
  | RequestException msg _ => print ("Error connecting to the API: " +:+ msg)
  | JSONDecodeError _ => print "Error decoding the API response"
  | OtherException msg => print ("Unexpected error: " +:+ msg)
  end.

Definition main (args : Args.t) : M unit :=
  client <- make_client args ;;
  try_except (dispatch client args) main_handlers.
End Main.

(** * Vocabulary of the properties *)

(** "Any 3xx": the redirect statuses in the words of the specification. *)
Definition is_redirect_status (s : Z) : bool := (300 <=? s) && (s <? 400).

(** "2xx": the success statuses. *)
Definition is_success_status (s : Z) : bool := (200 <=? s) && (s <? 300).

(** A string without a slash, as the host[:port] of a URL is. *)
Fixpoint no_slash (s : string) : bool :=
  match s with
  | EmptyString => true
  | String c r => negb (Ascii.eqb c "/"%char) && no_slash r
  end.

(** The world after the probe of [self] has been sent. *)
Definition probed (env : Env) (self : UnraidGraphQLClient) (w : World) : World :=
  mkWorld (sent w ++ [probe_request env (endpoint self)]) (stdout w).

(** The world after one more request and some more output. *)
Definition extend (w : World) (reqs : list Request) (out : list Output) : World :=
  mkWorld (sent w ++ reqs) (stdout w ++ out).

(** The operation text a request carries in its payload. *)
Definition request_query (r : Request) : option string :=
  match req_json r with
  | Some payload =>
      match payload !! "query" with
      | Some (JString q) => Some q
      | _ => None
      end
  | None => None
  end.

(** ** Sample runs

    A server at the address the program defaults to, the headers a fresh
    session of [requests] 2.32 carries, and a few answers of the network. *)

Definition requests_default_headers : CIDict.t :=
  CIDict.of_list
    [("User-Agent", "python-requests/2.32.3");
     ("Accept-Encoding", "gzip, deflate");
     ("Accept", "*/*");
     ("Connection", "keep-alive")].

Definition sample_url : string := "http://192.168.20.21:80/graphql".

Definition sample_response (status : Z) (why : string) (hdrs : list (string * string))
           (body : string) (decoded : JsonBody) : Response :=
  mkResponse status why sample_url (CIDict.of_list hdrs) body decoded.

(** A network that answers the probe with [probe] and every POST with [post]. *)
Definition sample_env (probe post : NetResult) (modern : bool) : Env :=
  mkEnv (fun _ r => match req_method r with GET => probe | POST => post end)
        requests_default_headers modern.

Definition sample_client : UnraidGraphQLClient :=
  mkClient "192.168.20.21" "secret" 80 "http://192.168.20.21:80" sample_url None
           (initial_headers "secret").

Definition quoted (s : string) : string := dq +:+ s +:+ dq.

Definition failed_500 : Response :=
  sample_response 500 "Internal Server Error" [("Content-Type", "application/json")]
                  ("{" +:+ quoted "errors" +:+ ":[" +:+ quoted "boom" +:+ "]}")
                  (JsonOk (JDict [("errors", JList [JString "boom"])])).

Definition not_modified_304 : Response :=
  sample_response 304 "Not Modified" [("Content-Type", "application/json")]
                  ("{" +:+ quoted "data" +:+ ":null}")
                  (JsonOk (JDict [("data", JNull)])).

Definition not_json : JsonBody := JsonInvalid "Expecting value: line 1 column 1 (char 0)".

Definition ok_200 : Response :=
  sample_response 200 "OK" [("Content-Type", "application/json")]
                  "{}" (JsonOk (JDict [])).

Definition html_200 : Response :=
  sample_response 200 "OK" [("Content-Type", "text/html")] "<html></html>" not_json.

Definition found_302 : Response :=
  sample_response 302 "Found" [("Location", "https://host.example/graphql")]
                  EmptyString not_json.

Definition moved_301 : Response :=
  sample_response 301 "Moved Permanently" [("Location", "https://host.example/graphql")]
                  EmptyString not_json.

(** What the executor prints about the response an exception carries. *)
Definition response_diagnostics (resp : option Response) : list Output :=
  match resp with
  | Some r => [OutLine ("Response status: " +:+ pretty (status_code r));
               OutLine ("Response body: " +:+ text r)]
  | None => []
  end.

(** A field of a JSON object. *)
Definition json_field (k : string) (doc : JSON) : option JSON :=
  match doc with
  | JDict fields => PyDict.get k fields
  | _ => None
  end.

(** The namespace of a command line that sets, besides the defaults of the
    program ([--query info], [--importance INFO]), only what is given here. *)
Definition sample_args (selector : string) (direct_flag reboot_flag add_user_flag : bool)
           (user start_container_id : option string) : Args.t :=
  Args.mk "192.168.20.21" "secret" 80 selector direct_flag None
         reboot_flag false false false false false false false false
         add_user_flag user None None false
         false None None
         false None None None "INFO" None None false
         false None None None
         start_container_id None None
         None None false None None.

(** ** Actions of [main] *)

(** Some control or mutating option is set: a switch is on, or an option
    that takes an identifier was given a non-empty one. *)
Definition control_flag_set (args : Args.t) : bool :=
  Args.reboot args || Args.shutdown args || Args.start_array args || Args.stop_array args
  || Args.start_parity args || Args.correct_parity args || Args.pause_parity args
  || Args.resume_parity args || Args.cancel_parity args
  || Args.add_user args || Args.delete_user args || Args.create_apikey args
  || Args.create_notification args || truthy_str (Args.archive_notification args)
  || Args.archive_all args || Args.setup_remote args
  || truthy_str (Args.start_container args) || truthy_str (Args.stop_container args)
  || truthy_str (Args.restart_container args)
  || truthy_str (Args.start_vm args) || truthy_str (Args.stop_vm args)
  || truthy_str (Args.pause_vm args) || truthy_str (Args.resume_vm args).

(** The texts of the read queries that [--query] can select. *)
Definition read_query_texts : list string :=
  [get_server_info_query; get_array_status_query; get_docker_containers_query;
   get_disks_info_query; get_network_info_query; get_detailed_network_info_query;
   get_shares_query; get_vms_query; get_parity_history_query; get_vars_query;
   get_users_query; get_api_keys_query;
   get_notifications_query "UNREAD" EmptyString 100].

(** How every mutation of the catalog begins. *)
Definition mutation_head : string := nl +:+ "        mutation {".

Definition is_mutation_text (q : string) : bool := String.prefix mutation_head q.

Definition is_line (x : Output) : Prop := exists s, x = OutLine s.

(** ** Further vocabulary *)

(** The address the constructor starts from. *)
Definition base_endpoint (server_ip : string) (port : Z) : string :=
  ("http://" +:+ server_ip +:+ ":" +:+ pretty port) +:+ "/graphql".

(** The three headers discovery derives from an authority. *)
Definition redirect_overrides (authority : string) : list (string * string) :=
  [("Host", authority);
   ("Origin", "https://" +:+ authority);
   ("Referer", "https://" +:+ authority +:+ "/dashboard")].

(** The header names of a dictionary, lower-cased. *)
Definition lower_keys (d : list (string * string)) : list string :=
  map (fun kv => lower (fst kv)) d.

(** The requests a computation adds all satisfy [P], however it ends. *)
Definition sends {A : Type} (P : Request -> Prop) (m : M A) : Prop :=
  forall w, exists new out, snd (m w) = extend w new out /\ Forall P new.

(** The POST of a client for an operation text without variables. *)
Definition query_post (env : Env) (client : UnraidGraphQLClient) (q : string) : Request :=
  post_request env client (build_payload q None).

(** The documents among the output, in the order printed. *)
Fixpoint printed_docs (out : list Output) : list JSON :=
  match out with
  | [] => []
  | OutJson doc :: r => doc :: printed_docs r
  | OutLine _ :: r => printed_docs r
  end.

(** A computation that returns after sending the POSTs of [texts], in this
    order, and printing one document for each. *)
Definition runs (env : Env) (client : UnraidGraphQLClient) (texts : list string)
           (m : M unit) : Prop :=
  forall w, exists out,
    m w = (Returned tt, extend w (map (query_post env client) texts) out) /\
    length (printed_docs out) = length texts.

(** The read queries by selector, as a table. *)
Definition selected_texts (selector : string) : list string :=
  if String.eqb selector "all" then read_query_texts
  else if String.eqb selector "info" then [get_server_info_query]
  else if String.eqb selector "array" then [get_array_status_query]
  else if String.eqb selector "docker" then [get_docker_containers_query]
  else if String.eqb selector "disks" then [get_disks_info_query]
  else if String.eqb selector "network"
       then [get_network_info_query; get_detailed_network_info_query]
  else if String.eqb selector "shares" then [get_shares_query]
  else if String.eqb selector "vms" then [get_vms_query]
  else if String.eqb selector "parity" then [get_parity_history_query]
  else if String.eqb selector "vars" then [get_vars_query]
  else if String.eqb selector "users" then [get_users_query]
  else if String.eqb selector "apikeys" then [get_api_keys_query]
  else if String.eqb selector "notifications"
       then [get_notifications_query "UNREAD" EmptyString 100]
  else [].

(** The control options, in the order [main] tests them. *)
Inductive Control : Type :=
| Reboot | Shutdown | StartArray | StopArray
| StartParity | CorrectParity | PauseParity | ResumeParity | CancelParity
| AddUser | DeleteUser | CreateApikey | CreateNotification
| ArchiveNotification | ArchiveAll | SetupRemote
| StartContainer | StopContainer | RestartContainer
| StartVm | StopVm | PauseVm | ResumeVm.

Definition control_set (c : Control) (args : Args.t) : bool :=
  match c with
  | Reboot => Args.reboot args
  | Shutdown => Args.shutdown args
  | StartArray => Args.start_array args
  | StopArray => Args.stop_array args
  | StartParity => Args.start_parity args
  | CorrectParity => Args.correct_parity args
  | PauseParity => Args.pause_parity args
  | ResumeParity => Args.resume_parity args
  | CancelParity => Args.cancel_parity args
  | AddUser => Args.add_user args
  | DeleteUser => Args.delete_user args
  | CreateApikey => Args.create_apikey args
  | CreateNotification => Args.create_notification args
  | ArchiveNotification => truthy_str (Args.archive_notification args)
  | ArchiveAll => Args.archive_all args
  | SetupRemote => Args.setup_remote args
  | StartContainer => truthy_str (Args.start_container args)
  | StopContainer => truthy_str (Args.stop_container args)
  | RestartContainer => truthy_str (Args.restart_container args)
  | StartVm => truthy_str (Args.start_vm args)
  | StopVm => truthy_str (Args.stop_vm args)
  | PauseVm => truthy_str (Args.pause_vm args)
  | ResumeVm => truthy_str (Args.resume_vm args)
  end.

Definition control_order : list Control :=
  [Reboot; Shutdown; StartArray; StopArray;
   StartParity; CorrectParity; PauseParity; ResumeParity; CancelParity;
   AddUser; DeleteUser; CreateApikey; CreateNotification;
   ArchiveNotification; ArchiveAll; SetupRemote;
   StartContainer; StopContainer; RestartContainer;
   StartVm; StopVm; PauseVm; ResumeVm].

(** The first control option that is set, if any. *)
Definition first_control (args : Args.t) : option Control :=
  List.find (fun c => control_set c args) control_order.

(** Container and virtual machine control. *)
Definition is_offline (c : Control) : bool :=
  match c with
  | StartContainer | StopContainer | RestartContainer
  | StartVm | StopVm | PauseVm | ResumeVm => true
  | _ => false
  end.

(** What a POST of [main] looks like, for a target and an API key. *)
Definition main_post (target key : string) (r : Request) : Prop :=
  req_method r = POST /\
  req_url r = target /\
  req_allow_redirects r = true /\
  req_verify r = false /\
  req_timeout r = Some 15 /\
  req_max_redirects r = 5 /\
  CIDict.get "x-api-key" (req_headers r) = Some key /\
  CIDict.get "Content-Type" (req_headers r) = Some "application/json" /\
  CIDict.get "Accept" (req_headers r) = Some "application/json" /\
  exists q, req_json r = Some {[ "query" := JString q ]}.

(** The mutation of each control option that is a plain switch. *)
Definition switch_text (c : Control) : option string :=
  match c with
  | Reboot => Some reboot_system_mutation
  | Shutdown => Some shutdown_system_mutation
  | StartArray => Some start_array_mutation
  | StopArray => Some stop_array_mutation
  | StartParity => Some (start_parity_check_mutation false)
  | CorrectParity => Some (start_parity_check_mutation true)
  | PauseParity => Some pause_parity_check_mutation
  | ResumeParity => Some resume_parity_check_mutation
  | CancelParity => Some cancel_parity_check_mutation
  | _ => None
  end.

(** The complaint of a control option about a required argument that is
    absent or empty, if it has one to make. *)
Definition missing_argument (c : Control) (args : Args.t) : option string :=
  match c with
  | AddUser =>
      if negb (truthy_str (Args.username args)) || negb (truthy_str (Args.password args))
      then Some "Error: Username and password are required for adding a user"
      else None
  | DeleteUser =>
      if negb (truthy_str (Args.username args))
      then Some "Error: Username is required for deleting a user"
      else None
  | CreateApikey =>
      if negb (truthy_str (Args.apikey_name args))
      then Some "Error: API key name is required"
      else None
  | CreateNotification =>
      if negb (truthy_str (Args.title args)) || negb (truthy_str (Args.subject args))
         || negb (truthy_str (Args.message args))
      then Some "Error: Title, subject, and message are required for creating a notification"
      else None
  | SetupRemote =>
      if negb (truthy_str (Args.access_type args))
      then Some "Error: Access type is required for setting up remote access"
      else None
  | _ => None
  end.

Definition control_index (c : Control) : nat :=
  match c with
  | Reboot => 0 | Shutdown => 1 | StartArray => 2 | StopArray => 3
  | StartParity => 4 | CorrectParity => 5 | PauseParity => 6 | ResumeParity => 7
  | CancelParity => 8 | AddUser => 9 | DeleteUser => 10 | CreateApikey => 11
  | CreateNotification => 12 | ArchiveNotification => 13 | ArchiveAll => 14
  | SetupRemote => 15 | StartContainer => 16 | StopContainer => 17
  | RestartContainer => 18 | StartVm => 19 | StopVm => 20 | PauseVm => 21
  | ResumeVm => 22
  end.

(** A command line that sets the control options listed in [on] (those that
    take an identifier get [id]), with the given importance and user name. *)
Definition sample_control_args (on : list Control) (id : option string) (level : string)
           (user : option string) : Args.t :=
  let has c := existsb (fun x => Nat.eqb (control_index x) (control_index c)) on in
  let given c := if has c then id else None in
  Args.mk "192.168.20.21" "secret" 80 "all" false None
         (has Reboot) (has Shutdown) (has StartArray) (has StopArray)
         (has StartParity) (has CorrectParity) (has PauseParity) (has ResumeParity)
         (has CancelParity)
         (has AddUser) user None None (has DeleteUser)
         (has CreateApikey) None None
         (has CreateNotification) None None None level None
         (given ArchiveNotification) (has ArchiveAll)
         (has SetupRemote) None None None
         (given StartContainer) (given StopContainer) (given RestartContainer)
         (given StartVm) (given StopVm) false (given PauseVm) (given ResumeVm).

(** A string in which the character [c] does not occur. *)
Fixpoint lacks (c : ascii) (s : string) : bool :=
  match s with
  | EmptyString => true
  | String a r => negb (Ascii.eqb a c) && lacks c r
  end.

(** A role as a user would list it: no comma inside, no space around. *)
Definition plain_role (r : string) : Prop := lacks ","%char r = true /\ strip r = r.

(** [--create-apikey --apikey-name ci --apikey-roles admin,guest]. *)
Definition sample_apikey_args : Args.t :=
  Args.mk "192.168.20.21" "secret" 80 "info" false None
         false false false false false false false false false
         false None None None false
         true (Some "ci") (Some "admin,guest")
         false None None None "INFO" None None false
         false None None None
         None None None
         None None false None None.

(** [--custom "{ online }" --query all]. *)
Definition sample_custom_args : Args.t :=
  Args.mk "192.168.20.21" "secret" 80 "all" false (Some "{ online }")
         false false false false false false false false false
         false None None None false
         false None None
         false None None None "INFO" None None false
         false None None None
         None None None
         None None false None None.

(** The banner [main] prints for each control option. *)
Definition control_banner (c : Control) (args : Args.t) : string :=
  match c with
  | Reboot => nl +:+ "=== REBOOTING SYSTEM ==="
  | Shutdown => nl +:+ "=== SHUTTING DOWN SYSTEM ==="
  | StartArray => nl +:+ "=== STARTING ARRAY ==="
  | StopArray => nl +:+ "=== STOPPING ARRAY ==="
  | StartParity => nl +:+ "=== STARTING PARITY CHECK ==="
  | CorrectParity => nl +:+ "=== STARTING PARITY CHECK WITH CORRECTION ==="
  | PauseParity => nl +:+ "=== PAUSING PARITY CHECK ==="
  | ResumeParity => nl +:+ "=== RESUMING PARITY CHECK ==="
  | CancelParity => nl +:+ "=== CANCELLING PARITY CHECK ==="
  | AddUser => nl +:+ "=== ADDING USER: " +:+ str_of (Args.username args) +:+ " ==="
  | DeleteUser => nl +:+ "=== DELETING USER: " +:+ str_of (Args.username args) +:+ " ==="
  | CreateApikey =>
      nl +:+ "=== CREATING API KEY: " +:+ str_of (Args.apikey_name args) +:+ " ==="
  | CreateNotification =>
      nl +:+ "=== CREATING NOTIFICATION: " +:+ str_of (Args.title args) +:+ " ==="
  | ArchiveNotification =>
      nl +:+ "=== ARCHIVING NOTIFICATION: " +:+ str_of (Args.archive_notification args)
         +:+ " ==="
  | ArchiveAll => nl +:+ "=== ARCHIVING ALL NOTIFICATIONS ==="
  | SetupRemote =>
      nl +:+ "=== SETTING UP REMOTE ACCESS: " +:+ str_of (Args.access_type args) +:+ " ==="
  | StartContainer =>
      nl +:+ "=== STARTING DOCKER CONTAINER: " +:+ str_of (Args.start_container args)
         +:+ " ==="
  | StopContainer =>
      nl +:+ "=== STOPPING DOCKER CONTAINER: " +:+ str_of (Args.stop_container args)
         +:+ " ==="
  | RestartContainer =>
      nl +:+ "=== RESTARTING DOCKER CONTAINER: " +:+ str_of (Args.restart_container args)
         +:+ " ==="
  | StartVm => nl +:+ "=== STARTING VM: " +:+ str_of (Args.start_vm args) +:+ " ==="
  | StopVm => nl +:+ "=== STOPPING VM: " +:+ str_of (Args.stop_vm args) +:+ " ==="
  | PauseVm => nl +:+ "=== PAUSING VM: " +:+ str_of (Args.pause_vm args) +:+ " ==="
  | ResumeVm => nl +:+ "=== RESUMING VM: " +:+ str_of (Args.resume_vm args) +:+ " ==="
  end.

(** The operation of the client that belongs to each control option, with
    the arguments [main] takes from the command line. *)
Definition control_call (env : Env) (client : UnraidGraphQLClient) (c : Control)
           (args : Args.t) : M JSON :=
  match c with
  | Reboot => reboot_system env client
  | Shutdown => shutdown_system env client
  | StartArray => start_array env client
  | StopArray => stop_array env client
  | StartParity => start_parity_check env client false
  | CorrectParity => start_parity_check env client true
  | PauseParity => pause_parity_check env client
  | ResumeParity => resume_parity_check env client
  | CancelParity => cancel_parity_check env client
  | AddUser =>
      add_user env client (str_of (Args.username args)) (str_of (Args.password args))
               (or_empty (Args.description args))
  | DeleteUser => delete_user env client (str_of (Args.username args))
  | CreateApikey =>
      create_api_key env client (str_of (Args.apikey_name args))
                     (or_empty (Args.description args))
                     (if truthy_str (Args.apikey_roles args)
                      then Some (map strip (split_comma (str_of (Args.apikey_roles args))))
                      else None)
  | CreateNotification =>
      create_notification env client (str_of (Args.title args)) (str_of (Args.subject args))
                          (str_of (Args.message args)) (Args.importance args)
                          (Args.link args)
  | ArchiveNotification =>
      archive_notification env client (str_of (Args.archive_notification args))
  | ArchiveAll =>
      archive_all_notifications env client
        (if negb (String.eqb (Args.importance args) "INFO")
         then Some (Args.importance args) else None)
  | SetupRemote =>
      setup_remote_access env client (str_of (Args.access_type args))
                          (Args.forward_type args) (Args.remote_port args)
  | StartContainer => start_docker_container client (str_of (Args.start_container args))
  | StopContainer => stop_docker_container client (str_of (Args.stop_container args))
  | RestartContainer =>
      restart_docker_container client (str_of (Args.restart_container args))
  | StartVm => start_vm client (str_of (Args.start_vm args))
  | StopVm => stop_vm client (str_of (Args.stop_vm args)) (Args.force_stop_vm args)
  | PauseVm => pause_vm client (str_of (Args.pause_vm args))
  | ResumeVm => resume_vm client (str_of (Args.resume_vm args))
  end.

(** A computation that always returns: no exception leaves it. *)
Definition returns {A : Type} (m : M A) : Prop :=
  forall w, exists a w', m w = (Returned a, w').

(** * Properties *)

(** ** Dictionaries *)

Lemma PyDict_get_set_eq {V : Type} (k : string) (v : V) (d : list (string * V)) :
  PyDict.get k (PyDict.set k v d) = Some v.
Proof.
  induction d as [|[k' v'] r IH]; simpl.
  - now rewrite String.eqb_refl.
  - destruct (String.eqb k k') eqn:E; simpl.
    + now rewrite String.eqb_refl.
    + now rewrite E.
Qed.

Lemma PyDict_get_set_ne {V : Type} (k k' : string) (v : V) (d : list (string * V)) :
  k <> k' -> PyDict.get k' (PyDict.set k v d) = PyDict.get k' d.
Proof.
  intros Hne. induction d as [|[k0 v0] r IH]; simpl.
  - destruct (String.eqb k' k) eqn:E; [|reflexivity].
    apply String.eqb_eq in E. congruence.
  - destruct (String.eqb k k0) eqn:E; simpl.
    + apply String.eqb_eq in E. subst k0.
      destruct (String.eqb k' k) eqn:E'; [|reflexivity].
      apply String.eqb_eq in E'. congruence.
    + now rewrite IH.
Qed.

Lemma CIDict_get_set_eq (k v : string) (d : CIDict.t) :
  CIDict.get k (CIDict.set k v d) = Some v.
Proof. unfold CIDict.get, CIDict.set. now rewrite lookup_insert_eq. Qed.

Lemma CIDict_get_set_ne (k k' v : string) (d : CIDict.t) :
  lower k <> lower k' -> CIDict.get k' (CIDict.set k v d) = CIDict.get k' d.
Proof. intros H. unfold CIDict.get, CIDict.set. now rewrite lookup_insert_ne. Qed.

(** ** Redirect discovery *)

(** On an absolute URL the pattern yields what stands between the scheme
    and the first slash of the path. *)
Lemma take_non_slash_authority (host rest : string) :
  no_slash host = true ->
  take_non_slash (host +:+ "/" +:+ rest) = host.
Proof.
  induction host as [|c host IH]; intros H.
  - reflexivity.
  - change (String c host +:+ "/" +:+ rest) with (String c (host +:+ "/" +:+ rest)).
    simpl in H |- *. apply andb_true_iff in H as [Hc Hh].
    destruct (Ascii.eqb c "/"); [discriminate|]. now rewrite IH.
Qed.

Lemma search_domain_here (s d : string) :
  match_domain_here s = Some d -> search_domain s = Some d.
Proof.
  intros H. destruct s as [|c s].
  - change (search_domain EmptyString)
      with (match match_domain_here EmptyString with
            | Some d => Some d
            | None => None
            end).
    now rewrite H.
  - change (search_domain (String c s))
      with (match match_domain_here (String c s) with
            | Some d => Some d
            | None => search_domain s
            end).
    now rewrite H.
Qed.

Lemma search_domain_absolute (secure : bool) (host rest : string) :
  host <> EmptyString ->
  no_slash host = true ->
  search_domain ((if secure then "https://" else "http://") +:+ host +:+ "/" +:+ rest)
  = Some host.
Proof.
  intros Hne Hs.
  assert (Hm : match_domain_here
                 ((if secure then "https://" else "http://") +:+ host +:+ "/" +:+ rest)
               = Some host).
  { remember (host +:+ "/" +:+ rest) as tail eqn:Ht.
    destruct secure; unfold match_domain_here; cbv -[take_non_slash];
      subst tail; rewrite take_non_slash_authority by exact Hs;
      now destruct host. }
  now apply search_domain_here.
Qed.

Section DiscoveryFacts.
Variable env : Env.
Implicit Types (self : UnraidGraphQLClient) (w : World).

Lemma discover_failure self w msg resp :
  transport env (sent w) (probe_request env (endpoint self)) = NetFailure msg resp ->
  _discover_redirect_url env self w =
  (Returned self,
   mkWorld (sent (probed env self w))
           (stdout w ++ [OutLine ("Warning: Could not discover redirect URL: " +:+ msg)])).
Proof.
  intros H. unfold _discover_redirect_url, try_except, bind, requests_get, http.
  now rewrite H.
Qed.

Lemma discover_not_302 self w r :
  transport env (sent w) (probe_request env (endpoint self)) = NetResponse r ->
  status_code r <> 302 ->
  _discover_redirect_url env self w = (Returned self, probed env self w).
Proof.
  intros H Hs. unfold _discover_redirect_url, try_except, bind, requests_get, http.
  rewrite H. apply Z.eqb_neq in Hs. now rewrite Hs.
Qed.

Lemma discover_no_location self w r :
  transport env (sent w) (probe_request env (endpoint self)) = NetResponse r ->
  CIDict.get "Location" (resp_headers r) = None ->
  _discover_redirect_url env self w = (Returned self, probed env self w).
Proof.
  intros H Hl. unfold _discover_redirect_url, try_except, bind, requests_get, http.
  rewrite H, Hl. now destruct (status_code r =? 302).
Qed.

Lemma discover_302 self w r location :
  transport env (sent w) (probe_request env (endpoint self)) = NetResponse r ->
  status_code r = 302 ->
  CIDict.get "Location" (resp_headers r) = Some location ->
  _discover_redirect_url env self w =
  (Returned
     (mkClient (server_ip self) (api_key self) (port self) (base_url self)
        location (Some location)
        match search_domain location with
        | Some domain =>
            PyDict.set "Referer" ("https://" +:+ domain +:+ "/dashboard")
              (PyDict.set "Origin" ("https://" +:+ domain)
                 (PyDict.set "Host" domain (headers self)))
        | None => headers self
        end),
   mkWorld (sent (probed env self w))
           (stdout w ++ [OutLine ("Discovered redirect URL: " +:+ location)])).
Proof.
  intros H Hs Hl. unfold _discover_redirect_url, try_except, bind, requests_get, http.
  rewrite H, Hl, Hs. simpl. unfold print. simpl.
  now destruct (search_domain location).
Qed.

End DiscoveryFacts.

(** ** Claims about redirect discovery *)

(** C1 (as amended). When the probe of the base GraphQL address is answered
    with status 302 and a Location header, redirect discovery returns
    normally, the effective endpoint and the stored redirect URL become the
    Location value, and, when the pattern [https?://([^/]+)] finds an
    authority in it, exactly Host = authority, Origin = https://authority and
    Referer = https://authority/dashboard are merged into the headers (every
    other header keeps its value); without an authority the headers stay as
    they were. *)
Theorem C1_redirect_302_followed (env : Env) (self : UnraidGraphQLClient) (w : World)
        (r : Response) (location : string) :
  transport env (sent w) (probe_request env (endpoint self)) = NetResponse r ->
  status_code r = 302 ->
  CIDict.get "Location" (resp_headers r) = Some location ->
  exists self',
    _discover_redirect_url env self w =
      (Returned self',
       extend w [probe_request env (endpoint self)]
              [OutLine ("Discovered redirect URL: " +:+ location)]) /\
    endpoint self' = location /\
    redirect_url self' = Some location /\
    match search_domain location with
    | Some authority =>
        PyDict.get "Host" (headers self') = Some authority /\
        PyDict.get "Origin" (headers self') = Some ("https://" +:+ authority) /\
        PyDict.get "Referer" (headers self') = Some ("https://" +:+ authority +:+ "/dashboard") /\
        forall k, k <> "Host" -> k <> "Origin" -> k <> "Referer" ->
                  PyDict.get k (headers self') = PyDict.get k (headers self)
    | None => headers self' = headers self
    end.
Proof.
  intros H Hs Hl. eexists. split; [exact (discover_302 env self w r location H Hs Hl)|].
  simpl. repeat split.
  destruct (search_domain location) as [authority|]; [|reflexivity].
  repeat split.
  - rewrite PyDict_get_set_ne by discriminate.
    rewrite PyDict_get_set_ne by discriminate.
    apply PyDict_get_set_eq.
  - rewrite PyDict_get_set_ne by discriminate. apply PyDict_get_set_eq.
  - apply PyDict_get_set_eq.
  - intros k H1 H2 H3. now rewrite !PyDict_get_set_ne by congruence.
Qed.

(** The specification's own example: a 302 to https://host.example/graphql. *)
Lemma C1_redirect_302_followed_witness :
  exists self',
    _discover_redirect_url (sample_env (NetResponse found_302) (NetResponse ok_200) true)
                           sample_client empty_world =
      (Returned self',
       mkWorld [probe_request (sample_env (NetResponse found_302) (NetResponse ok_200) true)
                              sample_url]
               [OutLine "Discovered redirect URL: https://host.example/graphql"]) /\
    endpoint self' = "https://host.example/graphql" /\
    redirect_url self' = Some "https://host.example/graphql" /\
    PyDict.get "Host" (headers self') = Some "host.example" /\
    PyDict.get "Origin" (headers self') = Some "https://host.example" /\
    PyDict.get "Referer" (headers self') = Some "https://host.example/dashboard" /\
    forall k, k <> "Host" -> k <> "Origin" -> k <> "Referer" ->
              PyDict.get k (headers self') = PyDict.get k (headers sample_client).
Proof.
  exact (C1_redirect_302_followed
           (sample_env (NetResponse found_302) (NetResponse ok_200) true)
           sample_client empty_world found_302 "https://host.example/graphql"
           eq_refl eq_refl eq_refl).
Defined.

(** C1 as stated fails: a 301 with a Location header is a redirect, and
    discovery leaves the endpoint and the headers alone. *)
Lemma C1_counterexample_301_ignored :
  is_redirect_status (status_code moved_301) = true /\
  CIDict.get "Location" (resp_headers moved_301) = Some "https://host.example/graphql" /\
  exists w',
    _discover_redirect_url (sample_env (NetResponse moved_301) (NetResponse ok_200) true)
                           sample_client empty_world = (Returned sample_client, w') /\
    endpoint sample_client <> "https://host.example/graphql" /\
    PyDict.get "Host" (headers sample_client) = None.
Proof.
  split; [reflexivity|]. split; [reflexivity|].
  eexists. split; [reflexivity|]. split; [discriminate|reflexivity].
Qed.

(** C6. When the probe fails at the transport level, the constructor
    returns normally: the effective endpoint is the base address, no
    redirect URL and no header override is stored, the warning is printed,
    and the client goes on to send its queries to the base address. *)
Theorem C6_probe_failure_falls_back (env : Env) (ip key : string) (p : Z) (w : World)
        (msg : string) (resp : option Response) :
  let base := ("http://" +:+ ip +:+ ":" +:+ pretty p) +:+ "/graphql" in
  transport env (sent w) (probe_request env base) = NetFailure msg resp ->
  exists client,
    __init__ env ip key p w =
      (Returned client,
       extend w [probe_request env base]
              [OutLine ("Warning: Could not discover redirect URL: " +:+ msg)]) /\
    endpoint client = base /\
    redirect_url client = None /\
    headers client = initial_headers key /\
    forall query variables w2,
      sent (snd (execute_query env client query variables w2)) =
      sent w2 ++ [mkRequest POST base (session_headers env client)
                            (Some (build_payload query variables)) true false (Some 15) 5].
Proof.
  intros base H.
  set (client := mkClient ip key p ("http://" +:+ ip +:+ ":" +:+ pretty p) base None
                          (initial_headers key)).
  exists client. split.
  - exact (discover_failure env client w msg resp H).
  - simpl. repeat split. intros query variables w2.
    unfold execute_query, try_except, bind, http, post_request. simpl.
    destruct (transport env (sent w2) _) as [r|m r]; simpl.
    + unfold raise_for_status.
      destruct (http_error_msg r); simpl; [reflexivity|].
      unfold response_json.
      destruct (json_body r); simpl; [reflexivity|].
      destruct (json_error_is_request_exception env); reflexivity.
    + destruct r; reflexivity.
Qed.

(** A connection that is refused during the probe. *)
Lemma C6_probe_failure_falls_back_witness :
  let env := sample_env (NetFailure "Connection refused" None) (NetResponse ok_200) true in
  exists client,
    __init__ env "192.168.20.21" "secret" 80 empty_world =
      (Returned client,
       mkWorld [probe_request env sample_url]
               [OutLine "Warning: Could not discover redirect URL: Connection refused"]) /\
    endpoint client = sample_url /\
    redirect_url client = None /\
    headers client = initial_headers "secret" /\
    forall query variables w2,
      sent (snd (execute_query env client query variables w2)) =
      sent w2 ++ [mkRequest POST sample_url (session_headers env client)
                            (Some (build_payload query variables)) true false (Some 15) 5].
Proof.
  exact (C6_probe_failure_falls_back
           (sample_env (NetFailure "Connection refused" None) (NetResponse ok_200) true)
           "192.168.20.21" "secret" 80 empty_world "Connection refused" None eq_refl).
Defined.

(** C7. A probe response that is not a redirect, or a redirect that carries
    no Location header, changes nothing in the client: discovery returns the
    client it was given (same endpoint, same headers) and prints nothing. *)
Theorem C7_no_redirect_no_change (env : Env) (self : UnraidGraphQLClient) (w : World)
        (r : Response) :
  transport env (sent w) (probe_request env (endpoint self)) = NetResponse r ->
  is_redirect_status (status_code r) = false \/
  CIDict.get "Location" (resp_headers r) = None ->
  _discover_redirect_url env self w =
    (Returned self, extend w [probe_request env (endpoint self)] []).
Proof.
  intros H [Hs|Hl]; unfold extend; rewrite app_nil_r.
  - apply discover_not_302 with (r := r); [exact H|].
    intros E. rewrite E in Hs. discriminate.
  - apply discover_no_location with (r := r); assumption.
Qed.

(** The specification's example, a probe answered with status 200. *)
Lemma C7_no_redirect_no_change_witness :
  let env := sample_env (NetResponse ok_200) (NetResponse ok_200) true in
  _discover_redirect_url env sample_client empty_world =
    (Returned sample_client, mkWorld [probe_request env sample_url] []).
Proof.
  exact (C7_no_redirect_no_change
           (sample_env (NetResponse ok_200) (NetResponse ok_200) true)
           sample_client empty_world ok_200 eq_refl (or_introl eq_refl)).
Defined.

(** ** The query executor *)

Section ExecutorFacts.
Variable env : Env.
Implicit Types (self : UnraidGraphQLClient) (w : World).

Lemma extend_nil w reqs : extend w reqs [] = mkWorld (sent w ++ reqs) (stdout w).
Proof. unfold extend. now rewrite app_nil_r. Qed.

(** Every path of [execute_query], by the answer of the network. *)
Lemma execute_query_cases self query variables w :
  let req := post_request env self (build_payload query variables) in
  execute_query env self query variables w =
  match transport env (sent w) req with
  | NetFailure msg resp =>
      (Returned (error_record msg),
       extend w [req] (OutLine ("Error making the request: " +:+ msg)
                         :: response_diagnostics resp))
  | NetResponse r =>
      match http_error_msg r with
      | Some msg =>
          (Returned (error_record msg),
           extend w [req] (OutLine ("Error making the request: " +:+ msg)
                             :: response_diagnostics (Some r)))
      | None =>
          match json_body r with
          | JsonOk doc => (Returned doc, extend w [req] [])
          | JsonInvalid msg =>
              if json_error_is_request_exception env
              then (Returned (error_record msg),
                    extend w [req] [OutLine ("Error making the request: " +:+ msg)])
              else (Raised (JSONDecodeError msg), extend w [req] [])
          end
      end
  end.
Proof.
  intros req. unfold execute_query, try_except, bind, http. fold req.
  destruct (transport env (sent w) req) as [r|msg resp]; simpl.
  - unfold raise_for_status. destruct (http_error_msg r) as [msg|]; simpl.
    + unfold extend; simpl. now rewrite <- !app_assoc.
    + unfold response_json. destruct (json_body r) as [doc|msg]; simpl.
      * now rewrite extend_nil.
      * destruct (json_error_is_request_exception env); simpl;
          [reflexivity | now rewrite extend_nil].
  - destruct resp as [r|]; simpl; unfold extend; simpl; [|reflexivity].
    now rewrite <- !app_assoc.
Qed.

(** The executor sends exactly one request whatever happens, and the only
    exception it lets through is the decoder's. *)
Lemma execute_query_outcome self query variables w :
  exists o out,
    execute_query env self query variables w =
      (o, extend w [post_request env self (build_payload query variables)] out) /\
    Forall (fun x => exists s, x = OutLine s) out /\
    ((exists doc, o = Returned doc) \/
     (exists msg, o = Raised (JSONDecodeError msg) /\ out = [] /\
                  json_error_is_request_exception env = false)).
Proof.
  rewrite execute_query_cases.
  destruct (transport env (sent w) _) as [r|msg resp].
  - destruct (http_error_msg r) as [msg|].
    + eexists _, _. split; [reflexivity|]. split; [|left; eauto].
      repeat constructor; eauto.
    + destruct (json_body r) as [doc|msg].
      * eexists _, _. split; [reflexivity|]. split; [constructor|left; eauto].
      * destruct (json_error_is_request_exception env) eqn:E.
        -- eexists _, _. split; [reflexivity|]. split; [|left; eauto].
           repeat constructor; eauto.
        -- eexists _, _. split; [reflexivity|]. split; [constructor|right; eauto].
  - eexists _, _. split; [reflexivity|]. split; [|left; eauto].
    destruct resp; repeat constructor; eauto.
Qed.

Lemma http_error_msg_some (r : Response) :
  400 <= status_code r < 600 ->
  exists kind,
    (kind = " Client Error: " \/ kind = " Server Error: ") /\
    http_error_msg r =
      Some (pretty (status_code r) +:+ kind +:+ reason r +:+ " for url: " +:+ url r).
Proof.
  intros H. unfold http_error_msg.
  destruct (status_code r <? 500) eqn:E.
  - exists " Client Error: ". split; [now left|].
    now replace (400 <=? status_code r) with true by (symmetry; apply Z.leb_le; lia).
  - exists " Server Error: ". split; [now right|].
    rewrite andb_false_r.
    replace (500 <=? status_code r) with true
      by (symmetry; apply Z.leb_le; apply Z.ltb_ge in E; lia).
    now replace (status_code r <? 600) with true by (symmetry; apply Z.ltb_lt; lia).
Qed.

Lemma http_error_msg_none (r : Response) :
  status_code r < 400 \/ 600 <= status_code r -> http_error_msg r = None.
Proof.
  intros H. unfold http_error_msg.
  destruct H as [H|H].
  - replace (400 <=? status_code r) with false by (symmetry; apply Z.leb_gt; lia).
    now replace (500 <=? status_code r) with false by (symmetry; apply Z.leb_gt; lia).
  - replace (status_code r <? 500) with false by (symmetry; apply Z.ltb_ge; lia).
    replace (status_code r <? 600) with false by (symmetry; apply Z.ltb_ge; lia).
    now rewrite !andb_false_r.
Qed.

End ExecutorFacts.

(** [main] and the constructor never let an exception escape. *)
Lemma discover_returns (env : Env) (self : UnraidGraphQLClient) (w : World) :
  exists self' w', _discover_redirect_url env self w = (Returned self', w').
Proof.
  unfold _discover_redirect_url, try_except, bind, requests_get, http.
  destruct (transport env (sent w) _) as [r|msg resp]; simpl; [|eauto].
  destruct (status_code r =? 302); [|eauto].
  destruct (CIDict.get "Location" (resp_headers r)) as [location|]; [|eauto].
  simpl. destruct (search_domain location); eauto.
Qed.

Lemma make_client_returns (env : Env) (args : Args.t) (w : World) :
  exists client w', make_client env args w = (Returned client, w').
Proof.
  unfold make_client, bind, __init__.
  destruct (discover_returns env
              (mkClient (Args.ip args) (Args.key args) (Args.port args)
                 ("http://" +:+ Args.ip args +:+ ":" +:+ pretty (Args.port args))
                 (("http://" +:+ Args.ip args +:+ ":" +:+ pretty (Args.port args)) +:+ "/graphql")
                 None (initial_headers (Args.key args))) w) as (c & w' & ->).
  destruct (Args.direct args); eauto.
Qed.

Lemma main_handlers_return (e : Exn) (w : World) :
  exists w', main_handlers e w = (Returned tt, w').
Proof. destruct e; simpl; unfold print; eauto. Qed.

Lemma main_returns (env : Env) (args : Args.t) (w : World) :
  exists w', main env args w = (Returned tt, w').
Proof.
  unfold main, bind.
  destruct (make_client_returns env args w) as (c & w1 & ->).
  unfold try_except.
  destruct (dispatch env c args w1) as [[[]|e] w2]; [eauto|].
  apply main_handlers_return.
Qed.

(** C3 (as amended). For a response with a 4xx or 5xx status the executor
    returns the record whose only field, error, holds the HTTP error message
    (which starts with the status code); the status code and the raw body
    text are printed as diagnostics; no exception leaves the call. *)
Theorem C3_http_error_status_reported (env : Env) (self : UnraidGraphQLClient)
        (query : string) (variables : option (list (string * JSON))) (w : World)
        (r : Response) :
  let req := post_request env self (build_payload query variables) in
  transport env (sent w) req = NetResponse r ->
  400 <= status_code r < 600 ->
  exists kind,
    (kind = " Client Error: " \/ kind = " Server Error: ") /\
    let msg := pretty (status_code r) +:+ kind +:+ reason r +:+ " for url: " +:+ url r in
    execute_query env self query variables w =
      (Returned (JDict [("error", JString msg)]),
       extend w [req]
              [OutLine ("Error making the request: " +:+ msg);
               OutLine ("Response status: " +:+ pretty (status_code r));
               OutLine ("Response body: " +:+ text r)]).
Proof.
  intros req H Hs.
  destruct (http_error_msg_some r Hs) as (kind & Hk & Hm).
  exists kind. split; [exact Hk|]. simpl.
  rewrite execute_query_cases. fold req. now rewrite H, Hm.
Qed.

(** The specification's example: a 500 whose body is an errors document. *)
Lemma C3_http_error_status_reported_witness :
  let env := sample_env (NetResponse ok_200) (NetResponse failed_500) true in
  let req := post_request env sample_client (build_payload reboot_system_mutation None) in
  exists kind,
    (kind = " Client Error: " \/ kind = " Server Error: ") /\
    let msg := "500" +:+ kind +:+ "Internal Server Error for url: " +:+ sample_url in
    execute_query env sample_client reboot_system_mutation None empty_world =
      (Returned (JDict [("error", JString msg)]),
       mkWorld [req]
               [OutLine ("Error making the request: " +:+ msg);
                OutLine "Response status: 500";
                OutLine ("Response body: " +:+ text failed_500)]).
Proof.
  apply (C3_http_error_status_reported
           (sample_env (NetResponse ok_200) (NetResponse failed_500) true)
           sample_client reboot_system_mutation None empty_world failed_500).
  - reflexivity.
  - simpl. lia.
Defined.

(** C3 as stated fails twice over. The record returned for a 500 holds the
    error message and nothing else: the body text is in no field and not
    inside the message. And a status outside 2xx that is no 4xx or 5xx,
    here 304, is not an error to the executor: the decoded body comes back. *)
Lemma C3_counterexample_record_and_304 :
  let query := reboot_system_mutation in
  let message := "500 Server Error: Internal Server Error for url: " +:+ sample_url in
  (exists w',
     execute_query (sample_env (NetResponse ok_200) (NetResponse failed_500) true)
                   sample_client query None empty_world
       = (Returned (JDict [("error", JString message)]), w') /\
     String.index 0 (text failed_500) message = None /\
     forall k v, json_field k (JDict [("error", JString message)]) = Some v ->
                 k = "error" /\ v = JString message) /\
  (is_success_status (status_code not_modified_304) = false /\
   exists w',
     execute_query (sample_env (NetResponse ok_200) (NetResponse not_modified_304) true)
                   sample_client query None empty_world
       = (Returned (JDict [("data", JNull)]), w') /\
     json_field "error" (JDict [("data", JNull)]) = None).
Proof.
  split.
  - eexists. split; [vm_compute; reflexivity|]. split; [vm_compute; reflexivity|].
    intros k v. simpl. destruct (String.eqb k "error") eqn:E; [|discriminate].
    apply String.eqb_eq in E. intros [= <-]. now split.
  - split; [reflexivity|]. eexists. split; [vm_compute; reflexivity|reflexivity].
Qed.

(** C8. Every call of the executor sends one request; its JSON payload
    has the operation text under query, and has a variables field exactly
    when a variables mapping was given and is not empty (the field then
    holds that mapping). *)
Theorem C8_payload_fields (env : Env) (self : UnraidGraphQLClient)
        (query : string) (variables : option (list (string * JSON))) (w : World) :
  exists r payload,
    sent (snd (execute_query env self query variables w)) = sent w ++ [r] /\
    req_json r = Some payload /\
    payload !! "query" = Some (JString query) /\
    (is_Some (payload !! "variables") <->
     exists vars, variables = Some vars /\ vars <> []) /\
    (forall vars, variables = Some vars -> vars <> [] ->
                  payload !! "variables" = Some (JDict vars)).
Proof.
  destruct (execute_query_outcome env self query variables w) as (o & out & E & _).
  exists (post_request env self (build_payload query variables)),
         (build_payload query variables).
  rewrite E. simpl. split; [reflexivity|]. split; [reflexivity|].
  unfold build_payload.
  destruct variables as [[|kv vars]|].
  - split; [reflexivity|]. split.
    + split.
      * intros [x Hx]. rewrite lookup_singleton_ne in Hx by discriminate. discriminate.
      * intros (vars & [= <-] & Hne). congruence.
    + intros vars [= <-] Hne. congruence.
  - split; [rewrite lookup_insert_ne by discriminate; apply lookup_singleton_eq|]. split.
    + split.
      * intros _. exists (kv :: vars). split; [reflexivity|discriminate].
      * intros _. rewrite lookup_insert_eq. eauto.
    + intros vars' [= <-] _. apply lookup_insert_eq.
  - split; [reflexivity|]. split.
    + split.
      * intros [x Hx]. rewrite lookup_singleton_ne in Hx by discriminate. discriminate.
      * intros (vars & [=] & _).
    + intros vars [=].
Qed.

(** C5. The seven control operations for containers and virtual machines
    return their fixed "not supported" record for every argument, and leave
    the world as it was: nothing is sent, nothing is printed. *)
Theorem C5_unsupported_operations_offline (self : UnraidGraphQLClient) (id : string)
        (force : bool) (w : World) :
  let docker := JDict [("error", JString "Docker container control operations are not currently supported by the Unraid GraphQL API")] in
  let vm := JDict [("error", JString "VM control operations are not currently supported by the Unraid GraphQL API")] in
  start_docker_container self id w = (Returned docker, w) /\
  stop_docker_container self id w = (Returned docker, w) /\
  restart_docker_container self id w = (Returned docker, w) /\
  start_vm self id w = (Returned vm, w) /\
  stop_vm self id force w = (Returned vm, w) /\
  pause_vm self id w = (Returned vm, w) /\
  resume_vm self id w = (Returned vm, w).
Proof. repeat split. Qed.

(** ** Direct mode *)

Lemma string_app_assoc (a b c : string) : (a +:+ b) +:+ c = a +:+ (b +:+ c).
Proof.
  induction a as [|x a IH]; [reflexivity|].
  change (String x ((a +:+ b) +:+ c) = String x (a +:+ (b +:+ c))).
  now rewrite IH.
Qed.

(** The address [main] pins in direct mode is the one the constructor
    starts from. *)
Lemma base_endpoint_eq (ip : string) (p : Z) :
  ("http://" +:+ ip +:+ ":" +:+ pretty p) +:+ "/graphql"
  = "http://" +:+ ip +:+ ":" +:+ pretty p +:+ "/graphql".
Proof. now rewrite !string_app_assoc. Qed.

(** C2, what the code does. With [--direct] the endpoint of the client
    [main] works with is the literal http://address:port/graphql and no
    redirect URL is kept, whatever the probe returned; but the probe has been
    sent all the same, by the constructor, before the flag is looked at. *)
Theorem C2_direct_mode_still_probes (env : Env) (args : Args.t) (w : World) :
  Args.direct args = true ->
  exists client out,
    make_client env args w =
      (Returned client,
       extend w [probe_request env
                   ("http://" +:+ Args.ip args +:+ ":" +:+ pretty (Args.port args) +:+ "/graphql")]
              out) /\
    endpoint client =
      "http://" +:+ Args.ip args +:+ ":" +:+ pretty (Args.port args) +:+ "/graphql" /\
    redirect_url client = None.
Proof.
  intros Hd. unfold make_client, bind, __init__. rewrite Hd, <- base_endpoint_eq.
  set (c0 := mkClient _ _ _ _ _ _ _).
  change (("http://" +:+ Args.ip args +:+ ":" +:+ pretty (Args.port args)) +:+ "/graphql")
    with (endpoint c0).
  unfold _discover_redirect_url, try_except, bind, requests_get, http.
  destruct (transport env (sent w) _) as [r|msg resp]; simpl.
  - destruct (status_code r =? 302);
      [|eexists _, []; rewrite extend_nil; repeat split].
    destruct (CIDict.get "Location" (resp_headers r)) as [location|];
      [|eexists _, []; rewrite extend_nil; repeat split].
    simpl. destruct (search_domain location); eexists _, _; repeat split.
  - eexists _, _. repeat split.
Qed.

(** The run [--direct] against a server that redirects: one GET is sent. *)
Lemma C2_direct_mode_still_probes_witness :
  let env := sample_env (NetResponse found_302) (NetResponse ok_200) true in
  exists client out,
    make_client env (sample_args "info" true false false None None) empty_world =
      (Returned client, mkWorld [probe_request env sample_url] out) /\
    endpoint client = sample_url /\
    redirect_url client = None.
Proof.
  exact (C2_direct_mode_still_probes
           (sample_env (NetResponse found_302) (NetResponse ok_200) true)
           (sample_args "info" true false false None None) empty_world eq_refl).
Defined.

(** C10. When discovery has followed a redirect and merged the header
    overrides, [--direct] puts the endpoint back to the literal base address
    and clears the stored redirect URL, and nothing else: the client keeps
    the Host, Origin and Referer found by discovery, and every later request
    goes to the base address with these three headers. *)
Theorem C10_direct_keeps_discovered_headers (env : Env) (args : Args.t) (w : World)
        (r : Response) (location authority : string) :
  let base := "http://" +:+ Args.ip args +:+ ":" +:+ pretty (Args.port args) +:+ "/graphql" in
  Args.direct args = true ->
  transport env (sent w) (probe_request env base) = NetResponse r ->
  status_code r = 302 ->
  CIDict.get "Location" (resp_headers r) = Some location ->
  search_domain location = Some authority ->
  exists discovered client w',
    __init__ env (Args.ip args) (Args.key args) (Args.port args) w = (Returned discovered, w') /\
    make_client env args w = (Returned client, w') /\
    endpoint discovered = location /\
    redirect_url discovered = Some location /\
    client = mkClient (server_ip discovered) (api_key discovered) (port discovered)
                      (base_url discovered) base None (headers discovered) /\
    PyDict.get "Host" (headers client) = Some authority /\
    PyDict.get "Origin" (headers client) = Some ("https://" +:+ authority) /\
    PyDict.get "Referer" (headers client) = Some ("https://" +:+ authority +:+ "/dashboard") /\
    forall query variables w2,
    exists req,
      sent (snd (execute_query env client query variables w2)) = sent w2 ++ [req] /\
      req_method req = POST /\
      req_url req = base /\
      CIDict.get "Host" (req_headers req) = Some authority /\
      CIDict.get "Origin" (req_headers req) = Some ("https://" +:+ authority) /\
      CIDict.get "Referer" (req_headers req) = Some ("https://" +:+ authority +:+ "/dashboard").
Proof.
  intros base Hd H Hs Hl Ha.
  assert (Hb : ("http://" +:+ Args.ip args +:+ ":" +:+ pretty (Args.port args)) +:+ "/graphql" = base)
    by apply base_endpoint_eq.
  set (c0 := mkClient (Args.ip args) (Args.key args) (Args.port args)
                      ("http://" +:+ Args.ip args +:+ ":" +:+ pretty (Args.port args))
                      (("http://" +:+ Args.ip args +:+ ":" +:+ pretty (Args.port args)) +:+ "/graphql")
                      None (initial_headers (Args.key args))).
  assert (H0 : transport env (sent w) (probe_request env (endpoint c0)) = NetResponse r)
    by (simpl; rewrite Hb; exact H).
  pose proof (discover_302 env c0 w r location H0 Hs Hl) as Hdisc.
  rewrite Ha in Hdisc. simpl in Hdisc.
  eexists _, _, _. split; [exact Hdisc|].
  split; [unfold make_client, bind, __init__; fold c0; rewrite Hdisc, Hd; reflexivity|].
  simpl. repeat split.
  intros query variables w2.
  match goal with
  | |- context [execute_query env ?c query variables w2] =>
      destruct (execute_query_outcome env c query variables w2) as (o & out & E & _)
  end.
  eexists. rewrite E. simpl. split; [reflexivity|]. split; [reflexivity|].
  split; [reflexivity|].
  repeat split; unfold post_request, session_headers, set_redirect_url, set_endpoint; simpl.
  - rewrite CIDict_get_set_ne by discriminate.
    rewrite CIDict_get_set_ne by discriminate.
    apply CIDict_get_set_eq.
  - rewrite CIDict_get_set_ne by discriminate. apply CIDict_get_set_eq.
  - apply CIDict_get_set_eq.
Qed.

(** A server that redirects to host.example, queried with [--direct]. *)
Lemma C10_direct_keeps_discovered_headers_witness :
  let env := sample_env (NetResponse found_302) (NetResponse ok_200) true in
  let args := sample_args "info" true false false None None in
  exists discovered client w',
    __init__ env "192.168.20.21" "secret" 80 empty_world = (Returned discovered, w') /\
    make_client env args empty_world = (Returned client, w') /\
    endpoint discovered = "https://host.example/graphql" /\
    redirect_url discovered = Some "https://host.example/graphql" /\
    client = mkClient (server_ip discovered) (api_key discovered) (port discovered)
                      (base_url discovered) sample_url None (headers discovered) /\
    PyDict.get "Host" (headers client) = Some "host.example" /\
    PyDict.get "Origin" (headers client) = Some "https://host.example" /\
    PyDict.get "Referer" (headers client) = Some "https://host.example/dashboard" /\
    forall query variables w2,
    exists req,
      sent (snd (execute_query env client query variables w2)) = sent w2 ++ [req] /\
      req_method req = POST /\
      req_url req = sample_url /\
      CIDict.get "Host" (req_headers req) = Some "host.example" /\
      CIDict.get "Origin" (req_headers req) = Some "https://host.example" /\
      CIDict.get "Referer" (req_headers req) = Some "https://host.example/dashboard".
Proof.
  exact (C10_direct_keeps_discovered_headers
           (sample_env (NetResponse found_302) (NetResponse ok_200) true)
           (sample_args "info" true false false None None) empty_world
           found_302 "https://host.example/graphql" "host.example"
           eq_refl eq_refl eq_refl eq_refl eq_refl).
Defined.

(** ** The dispatcher *)

Lemma build_payload_query (query : string) (variables : option (list (string * JSON))) :
  build_payload query variables !! "query" = Some (JString query).
Proof.
  unfold build_payload. destruct variables as [[|kv vars]|];
    [apply lookup_singleton_eq| |apply lookup_singleton_eq].
  rewrite lookup_insert_ne by discriminate. apply lookup_singleton_eq.
Qed.

Lemma read_texts_are_queries :
  Forall (fun t => is_mutation_text t = false) read_query_texts.
Proof. repeat constructor. Qed.

Lemma mutation_not_read (q : string) :
  is_mutation_text q = true -> ~ In q read_query_texts.
Proof.
  intros Hq Hin.
  pose proof (proj1 (List.Forall_forall _ _) read_texts_are_queries q Hin) as Hf.
  simpl in Hf. congruence.
Qed.


(** C9 as stated fails: [--add-user] without [--username] is an invocation
    with a mutating option set, and it prints no result of any operation;
    the one line on the output is the complaint about the missing argument.
    Nor is a result printed when the answer to [--reboot] does not decode and
    the decoder's exception reaches [main]. *)
Lemma C9_counterexample_no_result_printed :
  (let env := sample_env (NetResponse ok_200) (NetResponse ok_200) true in
   let args := sample_args "info" false false true None None in
   control_flag_set args = true /\
   main env args empty_world =
     (Returned tt,
      mkWorld [probe_request env sample_url]
              [OutLine "Error: Username and password are required for adding a user"]) /\
   forall doc,
     ~ In (OutJson doc)
          [OutLine "Error: Username and password are required for adding a user"]) /\
  (let env := sample_env (NetResponse ok_200) (NetResponse html_200) false in
   let args := sample_args "info" false true false None None in
   control_flag_set args = true /\
   stdout (snd (main env args empty_world)) =
     [OutLine (nl +:+ "=== REBOOTING SYSTEM ===");
      OutLine "Error decoding the API response"]).
Proof.
  split.
  - split; [reflexivity|]. split; [vm_compute; reflexivity|].
    intros doc [Hin|[]]. discriminate Hin.
  - split; [reflexivity|vm_compute; reflexivity].
Qed.

(** * Further properties of the code *)

(** ** The authority pattern *)

Lemma take_non_slash_no_slash (s : string) : no_slash (take_non_slash s) = true.
Proof.
  induction s as [|c s IH]; [reflexivity|].
  simpl. destruct (Ascii.eqb c "/") eqn:E; [reflexivity|].
  simpl. now rewrite E, IH.
Qed.

Lemma match_domain_here_shape (s d : string) :
  match_domain_here s = Some d -> d <> EmptyString /\ no_slash d = true.
Proof.
  unfold match_domain_here.
  destruct (strip_prefix "http" s) as [r|]; [|discriminate].
  cbv zeta.
  destruct (match match r with
                  | String "s"%char r' => strip_prefix "://" r'
                  | _ => None
                  end with
            | Some x => Some x
            | None => strip_prefix "://" r
            end) as [x|]; [|discriminate].
  pose proof (take_non_slash_no_slash x) as Hn.
  destruct (take_non_slash x) as [|c t]; [discriminate|].
  intros [= <-]. split; [discriminate|exact Hn].
Qed.

(** X1. Whatever the Location, an authority found by the pattern is never
    empty and never contains a slash. *)
Theorem search_domain_shape (s d : string) :
  search_domain s = Some d -> d <> EmptyString /\ no_slash d = true.
Proof.
  induction s as [|c s IH].
  - change (search_domain EmptyString)
      with (match match_domain_here EmptyString with
            | Some d => Some d
            | None => None
            end).
    destruct (match_domain_here EmptyString) eqn:E; [|discriminate].
    intros [= <-]. now apply match_domain_here_shape with (s := EmptyString).
  - change (search_domain (String c s))
      with (match match_domain_here (String c s) with
            | Some d => Some d
            | None => search_domain s
            end).
    destruct (match_domain_here (String c s)) eqn:E; [|exact IH].
    intros [= <-]. now apply match_domain_here_shape with (s := String c s).
Qed.

Lemma search_domain_shape_witness :
  "a.b:80?x" <> EmptyString /\ no_slash "a.b:80?x" = true.
Proof.
  exact (search_domain_shape "xxhttps:///http://a.b:80?x/y" "a.b:80?x" eq_refl).
Defined.

(** X2 is [search_domain_absolute] above: on http(s)://host/rest the
    authority is host. Here for a host with a port. *)
Lemma search_domain_absolute_witness :
  search_domain "https://tower.local:8443/graphql" = Some "tower.local:8443".
Proof.
  apply (search_domain_absolute true "tower.local:8443" "graphql").
  - discriminate.
  - reflexivity.
Defined.

(** ** The constructor *)

Lemma init_cases (env : Env) (ip key : string) (p : Z) (w : World) :
  exists client out,
    __init__ env ip key p w =
      (Returned client, extend w [probe_request env (base_endpoint ip p)] out) /\
    server_ip client = ip /\ api_key client = key /\ port client = p /\
    base_url client = "http://" +:+ ip +:+ ":" +:+ pretty p /\
    endpoint client = default (base_endpoint ip p) (redirect_url client) /\
    (headers client = initial_headers key \/
     exists location authority,
       redirect_url client = Some location /\
       search_domain location = Some authority /\
       headers client = initial_headers key ++ redirect_overrides authority).
Proof.
  unfold __init__, base_endpoint.
  set (c0 := mkClient _ _ _ _ _ _ _).
  change (("http://" +:+ ip +:+ ":" +:+ pretty p) +:+ "/graphql") with (endpoint c0).
  unfold _discover_redirect_url, try_except, bind, requests_get, http.
  destruct (transport env (sent w) _) as [r|msg resp]; simpl.
  - destruct (status_code r =? 302);
      [|exists c0, []; rewrite extend_nil; repeat split; now left].
    destruct (CIDict.get "Location" (resp_headers r)) as [location|];
      [|exists c0, []; rewrite extend_nil; repeat split; now left].
    simpl. destruct (search_domain location) as [authority|] eqn:E.
    + eexists _, _. split; [reflexivity|]. simpl. repeat split.
      right. exists location, authority. repeat split. exact E.
    + eexists _, _. split; [reflexivity|]. simpl. repeat split. now left.
  - eexists _, _. split; [reflexivity|]. simpl. repeat split. now left.
Qed.

(** X3. Whatever the network answers, the constructor returns a client
    after exactly one request, the probe of the base address. The client has
    the fields it was given; its endpoint is the stored redirect URL when
    there is one and the base address otherwise; its headers are the three
    initial ones, followed by the three overrides of an authority only in a
    client that stores a redirect URL. *)
Theorem constructor_invariant (env : Env) (ip key : string) (p : Z) (w : World) :
  exists client out,
    __init__ env ip key p w =
      (Returned client, extend w [probe_request env (base_endpoint ip p)] out) /\
    server_ip client = ip /\ api_key client = key /\ port client = p /\
    base_url client = "http://" +:+ ip +:+ ":" +:+ pretty p /\
    endpoint client = default (base_endpoint ip p) (redirect_url client) /\
    (headers client = initial_headers key \/
     exists location authority,
       redirect_url client = Some location /\
       search_domain location = Some authority /\
       headers client = initial_headers key ++ redirect_overrides authority).
Proof. exact (init_cases env ip key p w). Qed.

(** ** The executor *)

(** X4. When the POST fails in transport, the executor returns the record
    whose error field is the failure message; it prints that message, and
    the status and body only of a response that came with the failure. *)
Theorem execute_query_transport_failure (env : Env) (self : UnraidGraphQLClient)
        (query : string) (variables : option (list (string * JSON))) (w : World)
        (msg : string) (resp : option Response) :
  let req := post_request env self (build_payload query variables) in
  transport env (sent w) req = NetFailure msg resp ->
  execute_query env self query variables w =
    (Returned (JDict [("error", JString msg)]),
     extend w [req]
       (OutLine ("Error making the request: " +:+ msg) ::
        match resp with
        | Some r => [OutLine ("Response status: " +:+ pretty (status_code r));
                     OutLine ("Response body: " +:+ text r)]
        | None => []
        end)).
Proof.
  intros req H. rewrite execute_query_cases. fold req. now rewrite H.
Qed.

Lemma execute_query_transport_failure_witness :
  let env := sample_env (NetResponse ok_200) (NetFailure "Read timed out" None) true in
  execute_query env sample_client get_vms_query None empty_world =
    (Returned (JDict [("error", JString "Read timed out")]),
     mkWorld [post_request env sample_client (build_payload get_vms_query None)]
             [OutLine "Error making the request: Read timed out"]).
Proof.
  exact (execute_query_transport_failure
           (sample_env (NetResponse ok_200) (NetFailure "Read timed out" None) true)
           sample_client get_vms_query None empty_world "Read timed out" None eq_refl).
Defined.

(** X5. Only the statuses 400 to 599 are errors to the executor: a response
    with any other status, a 1xx or a 3xx as well as a 2xx, whose body
    decodes is returned as decoded, and nothing is printed. *)
Theorem execute_query_other_status_decoded (env : Env) (self : UnraidGraphQLClient)
        (query : string) (variables : option (list (string * JSON))) (w : World)
        (r : Response) (doc : JSON) :
  let req := post_request env self (build_payload query variables) in
  transport env (sent w) req = NetResponse r ->
  status_code r < 400 \/ 600 <= status_code r ->
  json_body r = JsonOk doc ->
  execute_query env self query variables w = (Returned doc, extend w [req] []).
Proof.
  intros req H Hs Hj. rewrite execute_query_cases. fold req.
  now rewrite H, (http_error_msg_none r Hs), Hj.
Qed.

Lemma execute_query_other_status_decoded_witness :
  let env := sample_env (NetResponse ok_200) (NetResponse not_modified_304) true in
  execute_query env sample_client get_vms_query None empty_world =
    (Returned (JDict [("data", JNull)]),
     mkWorld [post_request env sample_client (build_payload get_vms_query None)] []).
Proof.
  apply (execute_query_other_status_decoded
           (sample_env (NetResponse ok_200) (NetResponse not_modified_304) true)
           sample_client get_vms_query None empty_world not_modified_304).
  - reflexivity.
  - left. simpl. lia.
  - reflexivity.
Defined.

(** ** The headers of a request *)

Lemma fold_headers_other (l : list (string * string)) (d : CIDict.t) (k : string) :
  ~ In (lower k) (lower_keys l) ->
  CIDict.get k (fold_left (fun h kv => CIDict.set (fst kv) (snd kv) h) l d) = CIDict.get k d.
Proof.
  revert d. induction l as [|[k0 v0] l IH]; intros d Hk; [reflexivity|].
  simpl in *. rewrite IH by tauto.
  apply CIDict_get_set_ne. intros E. apply Hk. left. exact E.
Qed.

Lemma fold_headers_own (l : list (string * string)) (d : CIDict.t) (k v : string) :
  List.NoDup (lower_keys l) -> In (k, v) l ->
  CIDict.get k (fold_left (fun h kv => CIDict.set (fst kv) (snd kv) h) l d) = Some v.
Proof.
  revert d. induction l as [|[k0 v0] l IH]; intros d Hn Hin; [destruct Hin|].
  simpl in *. apply List.NoDup_cons_iff in Hn as [Hk0 Hn].
  destruct Hin as [[= -> ->]|Hin].
  - rewrite fold_headers_other by exact Hk0. apply CIDict_get_set_eq.
  - now apply IH.
Qed.

(** X6. The session of a call carries every header of the client, under
    its name in any letter case and in place of a default of that name,
    provided no two headers of the client differ in case only; a name the
    client does not have keeps the default of the session. *)
Theorem session_headers_lookup (env : Env) (self : UnraidGraphQLClient) :
  List.NoDup (lower_keys (headers self)) ->
  (forall k v, In (k, v) (headers self) ->
               CIDict.get k (session_headers env self) = Some v /\
               CIDict.get (lower k) (session_headers env self) = Some v) /\
  (forall k, ~ In (lower k) (lower_keys (headers self)) ->
             CIDict.get k (session_headers env self) =
             CIDict.get k (session_default_headers env)).
Proof.
  intros Hn. split.
  - intros k v Hin. split; [now apply fold_headers_own|].
    pose proof (fold_headers_own (headers self) (session_default_headers env) k v Hn Hin)
      as H.
    unfold CIDict.get in *. unfold session_headers.
    replace (lower (lower k)) with (lower k); [exact H|].
    clear. induction k as [|c k IH]; [reflexivity|].
    simpl. rewrite <- IH. f_equal.
    unfold lower_char.
    destruct (Nat.leb 65 (nat_of_ascii c) && Nat.leb (nat_of_ascii c) 90)%bool eqn:E;
      [|now rewrite E].
    apply andb_true_iff in E as [E1 E2].
    apply Nat.leb_le in E1, E2.
    rewrite nat_ascii_embedding by lia.
    replace (Nat.leb (nat_of_ascii c + 32) 90) with false; [now rewrite andb_false_r|].
    symmetry. apply Nat.leb_gt. lia.
  - intros k Hk. now apply fold_headers_other.
Qed.

(** The client's Accept replaces the default of [requests]. *)
Lemma session_headers_lookup_witness :
  let env := sample_env (NetResponse ok_200) (NetResponse ok_200) true in
  (forall k v, In (k, v) (headers sample_client) ->
               CIDict.get k (session_headers env sample_client) = Some v /\
               CIDict.get (lower k) (session_headers env sample_client) = Some v) /\
  (forall k, ~ In (lower k) (lower_keys (headers sample_client)) ->
             CIDict.get k (session_headers env sample_client) =
             CIDict.get k (session_default_headers env)).
Proof.
  apply (session_headers_lookup
           (sample_env (NetResponse ok_200) (NetResponse ok_200) true) sample_client).
  repeat constructor; simpl; intuition discriminate.
Defined.

(** ** The requests of a whole run *)

Lemma extend_extend (w : World) (a c : list Request) (b d : list Output) :
  extend (extend w a b) c d = extend w (a ++ c) (b ++ d).
Proof. unfold extend. simpl. now rewrite !app_assoc. Qed.

Lemma extend_nothing (w : World) : extend w [] [] = w.
Proof. destruct w. unfold extend. simpl. now rewrite !app_nil_r. Qed.

Section SendsFacts.
Context {A B : Type} (P : Request -> Prop).

Lemma sends_ret (a : A) : sends P (ret a).
Proof. intros w. exists [], []. now rewrite extend_nothing. Qed.

Lemma sends_raise (e : Exn) : sends P (@raise A e).
Proof. intros w. exists [], []. now rewrite extend_nothing. Qed.

Lemma sends_bind (m : M A) (k : A -> M B) :
  sends P m -> (forall a, sends P (k a)) -> sends P (bind m k).
Proof.
  intros Hm Hk w. unfold bind.
  destruct (Hm w) as (n1 & o1 & E1 & F1).
  destruct (m w) as [[a|e] w1]; simpl in E1; subst w1.
  - destruct (Hk a (extend w n1 o1)) as (n2 & o2 & E2 & F2).
    exists (n1 ++ n2), (o1 ++ o2). rewrite E2, extend_extend.
    split; [reflexivity|]. apply Forall_app. now split.
  - exists n1, o1. now split.
Qed.

Lemma sends_try_except (m : M A) (h : Exn -> M A) :
  sends P m -> (forall e, sends P (h e)) -> sends P (try_except m h).
Proof.
  intros Hm Hh w. unfold try_except.
  destruct (Hm w) as (n1 & o1 & E1 & F1).
  destruct (m w) as [[a|e] w1]; simpl in E1; subst w1.
  - exists n1, o1. now split.
  - destruct (Hh e (extend w n1 o1)) as (n2 & o2 & E2 & F2).
    exists (n1 ++ n2), (o1 ++ o2). rewrite E2, extend_extend.
    split; [reflexivity|]. apply Forall_app. now split.
Qed.

End SendsFacts.

Lemma sends_print (P : Request -> Prop) (s : string) : sends P (print s).
Proof. intros w. exists [], [OutLine s]. split; [|constructor]. unfold extend. simpl. now rewrite app_nil_r. Qed.

Lemma sends_print_json (P : Request -> Prop) (doc : JSON) : sends P (print_json doc).
Proof. intros w. exists [], [OutJson doc]. split; [|constructor]. unfold extend. simpl. now rewrite app_nil_r. Qed.

Lemma sends_execute_query (env : Env) (P : Request -> Prop) (client : UnraidGraphQLClient)
      (q : string) (variables : option (list (string * JSON))) :
  P (post_request env client (build_payload q variables)) ->
  sends P (execute_query env client q variables).
Proof.
  intros HP w.
  destruct (execute_query_outcome env client q variables w) as (o & out & E & _).
  exists [post_request env client (build_payload q variables)], out.
  rewrite E. split; [reflexivity|]. now repeat constructor.
Qed.

Lemma sends_report (env : Env) (P : Request -> Prop) (client : UnraidGraphQLClient)
      (banner : string) (call : M JSON) :
  sends P call -> sends P (report client banner call).
Proof.
  intros H. unfold report. apply sends_bind; [apply sends_print|]. intros _.
  apply sends_bind; [exact H|]. intros doc. apply sends_print_json.
Qed.

Lemma sends_main_handlers (P : Request -> Prop) (e : Exn) : sends P (main_handlers e).
Proof. destruct e; apply sends_print. Qed.

Section TraceFacts.
Variable env : Env.
Variable client : UnraidGraphQLClient.

Let P (r : Request) : Prop := exists q, r = query_post env client q.

Lemma sends_query (q : string) : sends P (execute_query env client q None).
Proof. apply sends_execute_query. now exists q. Qed.

Lemma sends_read_queries (args : Args.t) : sends P (read_queries env client args).
Proof.
  unfold read_queries.
  repeat (apply sends_bind; [|intros _]);
    repeat match goal with
           | |- sends _ (if ?b then _ else _) => destruct b
           | |- sends _ (ret _) => apply sends_ret
           | |- sends _ (report _ _ _) => apply (sends_report env)
           | |- sends _ (bind _ _) => apply sends_bind; [|intros _]
           | |- sends _ _ => apply sends_query
           end.
Qed.

Lemma sends_dispatch (args : Args.t) : sends P (dispatch env client args).
Proof.
  unfold dispatch.
  repeat match goal with
         | |- sends _ (if ?b then _ else _) => destruct b
         | |- sends _ (print _) => apply sends_print
         | |- sends _ (report _ _ (ret _)) => apply (sends_report env), sends_ret
         | |- sends _ (report _ _ (start_docker_container _ _)) =>
             apply (sends_report env), sends_ret
         | |- sends _ (report _ _ (stop_docker_container _ _)) =>
             apply (sends_report env), sends_ret
         | |- sends _ (report _ _ (restart_docker_container _ _)) =>
             apply (sends_report env), sends_ret
         | |- sends _ (report _ _ (start_vm _ _)) => apply (sends_report env), sends_ret
         | |- sends _ (report _ _ (stop_vm _ _ _)) => apply (sends_report env), sends_ret
         | |- sends _ (report _ _ (pause_vm _ _)) => apply (sends_report env), sends_ret
         | |- sends _ (report _ _ (resume_vm _ _)) => apply (sends_report env), sends_ret
         | |- sends _ (report _ _ _) => apply (sends_report env), sends_query
         | |- sends _ (read_queries _ _ _) => apply sends_read_queries
         end.
Qed.

End TraceFacts.

Lemma make_client_cases (env : Env) (args : Args.t) (w : World) :
  exists client out,
    make_client env args w =
      (Returned client,
       extend w [probe_request env (base_endpoint (Args.ip args) (Args.port args))] out) /\
    (Args.direct args = true ->
     endpoint client = base_endpoint (Args.ip args) (Args.port args)) /\
    (headers client = initial_headers (Args.key args) \/
     exists authority,
       headers client = initial_headers (Args.key args) ++ redirect_overrides authority).
Proof.
  unfold make_client, bind.
  destruct (init_cases env (Args.ip args) (Args.key args) (Args.port args) w)
    as (c & out & E & _ & _ & _ & _ & _ & Hh).
  rewrite E.
  assert (Hh' : headers c = initial_headers (Args.key args) \/
                exists authority,
                  headers c = initial_headers (Args.key args) ++ redirect_overrides authority).
  { destruct Hh as [Hh|(l & a & _ & _ & Hh)]; [now left|right; now exists a]. }
  destruct (Args.direct args).
  - eexists _, out. split; [reflexivity|]. split; [|exact Hh'].
    intros _. simpl. unfold base_endpoint. symmetry. apply base_endpoint_eq.
  - exists c, out. split; [reflexivity|]. split; [discriminate|exact Hh'].
Qed.

Lemma query_post_is_main_post (env : Env) (client : UnraidGraphQLClient) (key q : string) :
  headers client = initial_headers key \/
  (exists authority, headers client = initial_headers key ++ redirect_overrides authority) ->
  main_post (endpoint client) key (query_post env client q).
Proof.
  intros Hh. unfold main_post, query_post, post_request. simpl.
  repeat split; try (now exists q).
  all: unfold session_headers;
    destruct Hh as [->|(a & ->)];
    apply fold_headers_own;
    try (repeat constructor; simpl; intuition discriminate);
    simpl; tauto.
Qed.

(** X7. In every run of [main], the first request is the probe of the base
    address, a GET that carries only the default headers of a session; all
    requests after it are POSTs to one and the same address (the base
    address under [--direct]) that carry the API key and the JSON content
    headers, skip the certificate check, wait at most 15, and have a
    payload with the single field query: no operation of the program sends
    variables. *)
Theorem main_requests (env : Env) (args : Args.t) (w : World) :
  exists target posts,
    sent (snd (main env args w)) =
      sent w ++ probe_request env (base_endpoint (Args.ip args) (Args.port args)) :: posts /\
    (Args.direct args = true ->
     target = base_endpoint (Args.ip args) (Args.port args)) /\
    Forall (main_post target (Args.key args)) posts.
Proof.
  destruct (make_client_cases env args w) as (client & out & E & Hd & Hh).
  pose proof (sends_try_except _ _ _ (sends_dispatch env client args)
                (sends_main_handlers _)) as Hs.
  unfold main, bind. rewrite E.
  destruct (Hs (extend w [probe_request env (base_endpoint (Args.ip args) (Args.port args))]
                       out)) as (posts & out' & E' & HF).
  exists (endpoint client), posts. rewrite E'. simpl.
  split; [now rewrite <- app_assoc|]. split; [exact Hd|].
  eapply List.Forall_impl; [|exact HF].
  intros r [q ->]. now apply query_post_is_main_post.
Qed.

(** ** The read queries *)

Lemma printed_docs_app (a b : list Output) :
  printed_docs (a ++ b) = printed_docs a ++ printed_docs b.
Proof.
  induction a as [|[s|doc] a IH]; simpl; [reflexivity|exact IH|now rewrite IH].
Qed.

Lemma printed_docs_lines (out : list Output) :
  Forall (fun x => exists s, x = OutLine s) out -> printed_docs out = [].
Proof.
  induction 1 as [|x out [s ->] _ IH]; [reflexivity|exact IH].
Qed.

(** Without a control option, [main] comes to the custom query or to the
    read queries. *)
Lemma dispatch_without_control (env : Env) (client : UnraidGraphQLClient) (args : Args.t) :
  control_flag_set args = false ->
  dispatch env client args =
  if truthy_str (Args.custom args) then
    report client (nl +:+ "=== CUSTOM QUERY RESULT ===")
           (run_custom_query env client (str_of (Args.custom args)) None)
  else read_queries env client args.
Proof.
  intros H. unfold control_flag_set in H.
  repeat (apply orb_false_iff in H; destruct H as [H ?]).
  unfold dispatch.
  repeat match goal with
         | E : ?b = false |- context [if ?b then _ else _] => rewrite E
         end.
  reflexivity.
Qed.

Section RunsFacts.
Variable env : Env.
Variable client : UnraidGraphQLClient.
Hypothesis modern : json_error_is_request_exception env = true.

Lemma runs_skip : runs env client [] (ret tt).
Proof. intros w. exists []. now rewrite extend_nothing. Qed.

Lemma runs_report (banner q : string) :
  runs env client [q] (report client banner (execute_query env client q None)).
Proof.
  intros w. unfold report, bind, print, pretty_print_response, print_json.
  destruct (execute_query_outcome env client q None
              (mkWorld (sent w) (stdout w ++ [OutLine banner])))
    as (o & out & E & Hout & Ho).
  rewrite E.
  destruct Ho as [[doc ->]|(msg & _ & _ & Hlegacy)]; [|congruence].
  exists (OutLine banner :: out ++ [OutJson doc]). split.
  - unfold extend, query_post. simpl. f_equal. f_equal.
    repeat rewrite <- app_assoc. reflexivity.
  - simpl. rewrite printed_docs_app, (printed_docs_lines out Hout). reflexivity.
Qed.

Lemma runs_seq (t1 t2 : list string) (m1 m2 : M unit) :
  runs env client t1 m1 -> runs env client t2 m2 ->
  runs env client (t1 ++ t2) (bind m1 (fun _ => m2)).
Proof.
  intros H1 H2 w. unfold bind.
  destruct (H1 w) as (o1 & E1 & L1). rewrite E1.
  destruct (H2 (extend w (map (query_post env client) t1) o1)) as (o2 & E2 & L2).
  rewrite E2, extend_extend. exists (o1 ++ o2). split.
  - now rewrite map_app.
  - rewrite printed_docs_app, !length_app. lia.
Qed.

Lemma runs_if (b : bool) (t : list string) (m : M unit) :
  runs env client t m -> runs env client (if b then t else []) (if b then m else ret tt).
Proof. destruct b; [trivial|intros _; apply runs_skip]. Qed.

Lemma runs_read_queries_flat (args : Args.t) :
  runs env client
    ((if query_is args "info" then [get_server_info_query] else []) ++
     (if query_is args "array" then [get_array_status_query] else []) ++
     (if query_is args "docker" then [get_docker_containers_query] else []) ++
     (if query_is args "disks" then [get_disks_info_query] else []) ++
     (if query_is args "network"
      then [get_network_info_query] ++ [get_detailed_network_info_query] else []) ++
     (if query_is args "shares" then [get_shares_query] else []) ++
     (if query_is args "vms" then [get_vms_query] else []) ++
     (if query_is args "parity" then [get_parity_history_query] else []) ++
     (if query_is args "vars" then [get_vars_query] else []) ++
     (if query_is args "users" then [get_users_query] else []) ++
     (if query_is args "apikeys" then [get_api_keys_query] else []) ++
     (if query_is args "notifications"
      then [get_notifications_query "UNREAD" EmptyString 100] else []))
    (read_queries env client args).
Proof.
  unfold read_queries.
  repeat (apply runs_seq; [apply runs_if|]); try apply runs_if;
    try (apply runs_seq); apply runs_report.
Qed.

End RunsFacts.

Lemma read_queries_table (args : Args.t) :
  (if query_is args "info" then [get_server_info_query] else []) ++
  (if query_is args "array" then [get_array_status_query] else []) ++
  (if query_is args "docker" then [get_docker_containers_query] else []) ++
  (if query_is args "disks" then [get_disks_info_query] else []) ++
  (if query_is args "network"
   then [get_network_info_query] ++ [get_detailed_network_info_query] else []) ++
  (if query_is args "shares" then [get_shares_query] else []) ++
  (if query_is args "vms" then [get_vms_query] else []) ++
  (if query_is args "parity" then [get_parity_history_query] else []) ++
  (if query_is args "vars" then [get_vars_query] else []) ++
  (if query_is args "users" then [get_users_query] else []) ++
  (if query_is args "apikeys" then [get_api_keys_query] else []) ++
  (if query_is args "notifications"
   then [get_notifications_query "UNREAD" EmptyString 100] else [])
  = selected_texts (Args.query args).
Proof.
  unfold query_is, selected_texts.
  generalize (Args.query args) as selector. intros selector.
  repeat match goal with
         | |- context [String.eqb selector ?name] =>
             destruct (String.eqb_spec selector name) as [->|?]; [reflexivity|]
         end.
  reflexivity.
Qed.

(** X8. Without a control option or a custom query, and with a [requests]
    whose decoding error is a [RequestException], [main] sends the read
    queries of the selector, each once and in the order of the table, then
    ends normally: a query that fails does not stop the ones after it, and
    one document (a result or an error record) is printed for each. *)
Theorem read_queries_run_in_order (env : Env) (args : Args.t) (w : World) :
  json_error_is_request_exception env = true ->
  control_flag_set args = false ->
  truthy_str (Args.custom args) = false ->
  exists client w1 out,
    make_client env args w = (Returned client, w1) /\
    main env args w =
      (Returned tt,
       extend w1 (map (query_post env client) (selected_texts (Args.query args))) out) /\
    length (printed_docs out) = length (selected_texts (Args.query args)).
Proof.
  intros Hm Hc Hq.
  destruct (make_client_returns env args w) as (client & w1 & E).
  destruct (runs_read_queries_flat env client Hm args w1) as (out & E' & L).
  rewrite read_queries_table in E', L.
  exists client, w1, out. split; [exact E|]. split; [|exact L].
  unfold main, bind, try_except. rewrite E.
  now rewrite (dispatch_without_control env client args Hc), Hq, E'.
Qed.

(** [--query network] against a server that answers every query. *)
Lemma read_queries_run_in_order_witness :
  let env := sample_env (NetResponse ok_200) (NetResponse ok_200) true in
  let args := sample_args "network" false false false None None in
  exists client w1 out,
    make_client env args empty_world = (Returned client, w1) /\
    main env args empty_world =
      (Returned tt,
       extend w1 [query_post env client get_network_info_query;
                  query_post env client get_detailed_network_info_query] out) /\
    length (printed_docs out) = 2%nat.
Proof.
  exact (read_queries_run_in_order
           (sample_env (NetResponse ok_200) (NetResponse ok_200) true)
           (sample_args "network" false false false None None) empty_world
           eq_refl eq_refl eq_refl).
Defined.

Lemma bind_raised {A B : Type} (m : M A) (k : A -> M B) (w w' : World) (e : Exn) :
  m w = (Raised e, w') -> bind m k w = (Raised e, w').
Proof. intros H. unfold bind. now rewrite H. Qed.

Lemma report_raised (client : UnraidGraphQLClient) (banner : string) (call : M JSON)
      (w w' : World) (e : Exn) :
  call (mkWorld (sent w) (stdout w ++ [OutLine banner])) = (Raised e, w') ->
  report client banner call w = (Raised e, w').
Proof. intros H. unfold report, bind, print. now rewrite H. Qed.

(** X9. Where [json.JSONDecodeError] comes through the executor, a body
    that does not decode ends the run: when the first read query, the server
    information, is answered that way, [main] prints the line of its decoding
    handler and sends none of the queries that would follow. *)
Theorem decode_error_stops_read_queries (env : Env) (args : Args.t) (w w1 : World)
        (client : UnraidGraphQLClient) (r : Response) (msg : string) :
  json_error_is_request_exception env = false ->
  control_flag_set args = false ->
  truthy_str (Args.custom args) = false ->
  query_is args "info" = true ->
  make_client env args w = (Returned client, w1) ->
  transport env (sent w1) (query_post env client get_server_info_query) = NetResponse r ->
  status_code r < 400 \/ 600 <= status_code r ->
  json_body r = JsonInvalid msg ->
  main env args w =
    (Returned tt,
     extend w1 [query_post env client get_server_info_query]
            [OutLine (nl +:+ "=== SERVER INFORMATION ===");
             OutLine "Error decoding the API response"]).
Proof.
  intros Hl Hc Hq Hi E Ht Hs Hj.
  set (banner := nl +:+ "=== SERVER INFORMATION ===").
  assert (Hr : read_queries env client args w1 =
               (Raised (JSONDecodeError msg),
                extend w1 [query_post env client get_server_info_query] [OutLine banner])).
  { unfold read_queries. apply bind_raised. rewrite Hi. fold banner.
    apply report_raised. unfold get_server_info.
    rewrite execute_query_cases. cbn [sent]. unfold query_post in Ht.
    rewrite Ht, (http_error_msg_none r Hs), Hj, Hl.
    unfold extend. simpl. now rewrite app_nil_r. }
  unfold main, bind. rewrite E.
  rewrite (dispatch_without_control env client args Hc), Hq.
  unfold try_except. rewrite Hr.
  unfold main_handlers, print, extend. simpl. now rewrite <- app_assoc.
Qed.

Lemma decode_error_stops_read_queries_witness :
  let env := sample_env (NetResponse ok_200) (NetResponse html_200) false in
  let args := sample_args "all" false false false None None in
  main env args empty_world =
    (Returned tt,
     mkWorld [probe_request env sample_url;
              query_post env sample_client get_server_info_query]
             [OutLine (nl +:+ "=== SERVER INFORMATION ===");
              OutLine "Error decoding the API response"]).
Proof.
  apply (decode_error_stops_read_queries
           (sample_env (NetResponse ok_200) (NetResponse html_200) false)
           (sample_args "all" false false false None None) empty_world
           (mkWorld [probe_request
                       (sample_env (NetResponse ok_200) (NetResponse html_200) false)
                       sample_url] [])
           sample_client html_200 "Expecting value: line 1 column 1 (char 0)");
    try reflexivity.
  left. simpl. lia.
Defined.

(** What an action that runs one operation through the executor sends. *)
Lemma action_query_trace (env : Env) (client : UnraidGraphQLClient) (banner q : string)
      (w : World) :
  exists out,
    snd (try_except (report client banner (execute_query env client q None))
                    main_handlers w)
    = extend w [query_post env client q] out.
Proof.
  unfold try_except, report, bind, print, pretty_print_response, print_json.
  destruct (execute_query_outcome env client q None
              (mkWorld (sent w) (stdout w ++ [OutLine banner])))
    as (o & out & E & _ & Ho).
  rewrite E.
  destruct Ho as [[doc ->]|(msg & -> & -> & _)].
  - exists (OutLine banner :: out ++ [OutJson doc]).
    unfold extend, query_post. simpl. f_equal.
    repeat rewrite <- app_assoc. reflexivity.
  - exists [OutLine banner; OutLine "Error decoding the API response"].
    unfold extend, query_post, main_handlers, print. simpl. f_equal.
    rewrite ?app_nil_r. repeat rewrite <- app_assoc. reflexivity.
Qed.

(** X10. Without a control option, a custom query that is not empty is the
    one request [main] sends after the probe: its text goes out as given,
    without variables, and no read query runs, whatever [--query] says. *)
Theorem custom_query_runs_alone (env : Env) (args : Args.t) (w : World) (text : string) :
  control_flag_set args = false ->
  Args.custom args = Some text ->
  text <> EmptyString ->
  exists client w1 out,
    make_client env args w = (Returned client, w1) /\
    snd (main env args w) = extend w1 [query_post env client text] out /\
    req_json (query_post env client text) = Some {[ "query" := JString text ]}.
Proof.
  intros Hc Hq Hne.
  destruct (make_client_returns env args w) as (client & w1 & E).
  exists client, w1.
  unfold main, bind. rewrite E.
  rewrite (dispatch_without_control env client args Hc), Hq.
  destruct text as [|c text]; [congruence|]. simpl truthy_str. cbv iota.
  destruct (action_query_trace env client (nl +:+ "=== CUSTOM QUERY RESULT ===")
              (String c text) w1) as (out & E').
  exists out. split; [reflexivity|]. split; [exact E'|reflexivity].
Qed.

(** ** Which control option wins *)

Ltac first_control_cases H :=
  unfold first_control, control_order in H; simpl in H;
  repeat match type of H with
         | (if ?b then _ else _) = _ => destruct b eqn:?; try discriminate H
         end.

Lemma refused_run (msg : string) (w : World) :
  try_except (print msg) main_handlers w = (Returned tt, extend w [] [OutLine msg]).
Proof. unfold try_except, print, extend. simpl. now rewrite app_nil_r. Qed.

Lemma fixed_run (client : UnraidGraphQLClient) (banner : string) (doc : JSON) (w : World) :
  try_except (report client banner (ret doc)) main_handlers w =
  (Returned tt, extend w [] [OutLine banner; OutJson doc]).
Proof.
  unfold try_except, report, bind, print, ret, pretty_print_response, print_json, extend.
  simpl. rewrite app_nil_r, <- app_assoc. reflexivity.
Qed.

(** X11. When the first control option set, in the order [main] tests
    them, is one of the nine plain switches, the one request after the probe
    is the mutation of that switch; options further down the order are
    ignored, so [--start-parity] with [--correct-parity] starts a check that
    does not correct. *)
Theorem first_switch_decides (env : Env) (args : Args.t) (w : World)
        (c : Control) (q : string) :
  first_control args = Some c ->
  switch_text c = Some q ->
  exists client w1 out,
    make_client env args w = (Returned client, w1) /\
    snd (main env args w) = extend w1 [query_post env client q] out.
Proof.
  intros H Hq.
  destruct (make_client_returns env args w) as (client & w1 & E).
  exists client, w1.
  enough (exists out,
            snd (try_except (dispatch env client args) main_handlers w1)
            = extend w1 [query_post env client q] out) as [out Ho].
  { exists out. split; [exact E|]. unfold main, bind. now rewrite E. }
  unfold dispatch.
  first_control_cases H; injection H as <-; try discriminate Hq;
    injection Hq as <-; apply action_query_trace.
Qed.

(** Both parity options at once: the check starts without correction. *)
Lemma first_switch_decides_witness :
  let env := sample_env (NetResponse ok_200) (NetResponse ok_200) true in
  let args := sample_control_args [CorrectParity; StartParity] None "INFO" None in
  exists client w1 out,
    make_client env args empty_world = (Returned client, w1) /\
    snd (main env args empty_world) =
      extend w1 [query_post env client (start_parity_check_mutation false)] out.
Proof.
  exact (first_switch_decides
           (sample_env (NetResponse ok_200) (NetResponse ok_200) true)
           (sample_control_args [CorrectParity; StartParity] None "INFO" None)
           empty_world StartParity (start_parity_check_mutation false) eq_refl eq_refl).
Defined.

(** X12. When the first control option set lacks an argument it requires
    (absent or empty), [main] prints the complaint of that option and ends:
    no request follows the probe, and no option further down is tried. *)
Theorem missing_argument_sends_nothing (env : Env) (args : Args.t) (w : World)
        (c : Control) (msg : string) :
  first_control args = Some c ->
  missing_argument c args = Some msg ->
  exists client w1,
    make_client env args w = (Returned client, w1) /\
    main env args w = (Returned tt, extend w1 [] [OutLine msg]).
Proof.
  intros H Hm.
  destruct (make_client_returns env args w) as (client & w1 & E).
  exists client, w1. split; [exact E|].
  unfold main, bind. rewrite E. unfold dispatch.
  first_control_cases H; injection H as <-; try discriminate Hm;
    simpl in Hm;
    match type of Hm with
    | (if ?b then _ else _) = _ => destruct b; [|discriminate Hm]
    end;
    injection Hm as <-; apply refused_run.
Qed.

(** [--delete-user] without a user name, together with [--archive-all]. *)
Lemma missing_argument_sends_nothing_witness :
  let env := sample_env (NetResponse ok_200) (NetResponse ok_200) true in
  let args := sample_control_args [DeleteUser; ArchiveAll] None "INFO" None in
  exists client w1,
    make_client env args empty_world = (Returned client, w1) /\
    main env args empty_world =
      (Returned tt,
       extend w1 [] [OutLine "Error: Username is required for deleting a user"]).
Proof.
  exact (missing_argument_sends_nothing
           (sample_env (NetResponse ok_200) (NetResponse ok_200) true)
           (sample_control_args [DeleteUser; ArchiveAll] None "INFO" None)
           empty_world DeleteUser "Error: Username is required for deleting a user"
           eq_refl eq_refl).
Defined.

(** X13. When [--archive-all] is the first control option set, the
    mutation archives without a filter if the importance is INFO, which is
    also the default of the option, and with the importance as filter if it
    is another, non-empty level: INFO itself cannot be used as a filter. *)
Theorem archive_all_filter (env : Env) (args : Args.t) (w : World) :
  first_control args = Some ArchiveAll ->
  exists client w1 out q,
    make_client env args w = (Returned client, w1) /\
    snd (main env args w) = extend w1 [query_post env client q] out /\
    (Args.importance args = "INFO" ->
     q = archive_all_notifications_mutation EmptyString) /\
    (Args.importance args <> "INFO" -> Args.importance args <> EmptyString ->
     q = archive_all_notifications_mutation
           ("(importance: " +:+ Args.importance args +:+ ")")).
Proof.
  intros H.
  destruct (make_client_returns env args w) as (client & w1 & E).
  exists client, w1.
  enough (exists out q,
            snd (try_except (dispatch env client args) main_handlers w1)
            = extend w1 [query_post env client q] out /\
            (Args.importance args = "INFO" ->
             q = archive_all_notifications_mutation EmptyString) /\
            (Args.importance args <> "INFO" -> Args.importance args <> EmptyString ->
             q = archive_all_notifications_mutation
                   ("(importance: " +:+ Args.importance args +:+ ")")))
    as (out & q & Ho & Hq).
  { exists out, q. split; [exact E|]. split; [|exact Hq]. unfold main, bind. now rewrite E. }
  unfold dispatch.
  first_control_cases H. clear H.
  unfold archive_all_notifications.
  destruct (String.eqb_spec (Args.importance args) "INFO") as [Hi|Hi]; simpl negb; cbv iota.
  - destruct (action_query_trace env client (nl +:+ "=== ARCHIVING ALL NOTIFICATIONS ===")
                (archive_all_notifications_mutation EmptyString) w1) as (out & Ho).
    exists out, (archive_all_notifications_mutation EmptyString).
    split; [exact Ho|]. split; [reflexivity|contradiction].
  - destruct (Args.importance args) as [|ch rest] eqn:Hl.
    + destruct (action_query_trace env client (nl +:+ "=== ARCHIVING ALL NOTIFICATIONS ===")
                  (archive_all_notifications_mutation EmptyString) w1) as (out & Ho).
      exists out, (archive_all_notifications_mutation EmptyString).
      split; [exact Ho|]. split; [reflexivity|congruence].
    + destruct (action_query_trace env client (nl +:+ "=== ARCHIVING ALL NOTIFICATIONS ===")
                  (archive_all_notifications_mutation
                     ("(importance: " +:+ String ch rest +:+ ")")) w1) as (out & Ho).
      exists out, (archive_all_notifications_mutation
                     ("(importance: " +:+ String ch rest +:+ ")")).
      split; [exact Ho|]. split; [congruence|reflexivity].
Qed.

(** [--archive-all --importance WARNING]. *)
Lemma archive_all_filter_witness :
  let env := sample_env (NetResponse ok_200) (NetResponse ok_200) true in
  let args := sample_control_args [ArchiveAll] None "WARNING" None in
  exists client w1 out q,
    make_client env args empty_world = (Returned client, w1) /\
    snd (main env args empty_world) = extend w1 [query_post env client q] out /\
    (Args.importance args = "INFO" ->
     q = archive_all_notifications_mutation EmptyString) /\
    (Args.importance args <> "INFO" -> Args.importance args <> EmptyString ->
     q = archive_all_notifications_mutation "(importance: WARNING)").
Proof.
  exact (archive_all_filter
           (sample_env (NetResponse ok_200) (NetResponse ok_200) true)
           (sample_control_args [ArchiveAll] None "WARNING" None) empty_world eq_refl).
Defined.

(** X14. When the first control option set is one for containers or
    virtual machines, the probe is the only request of the whole run:
    [main] prints a banner and the fixed record of an operation that is not
    supported, and ends. *)
Theorem offline_control_sends_nothing (env : Env) (args : Args.t) (w : World) (c : Control) :
  first_control args = Some c ->
  is_offline c = true ->
  exists client w1 banner note,
    make_client env args w = (Returned client, w1) /\
    main env args w =
      (Returned tt,
       extend w1 [] [OutLine banner; OutJson (JDict [("error", JString note)])]) /\
    (note = "Docker container control operations are not currently supported by the Unraid GraphQL API" \/
     note = "VM control operations are not currently supported by the Unraid GraphQL API").
Proof.
  intros H Ho.
  destruct (make_client_returns env args w) as (client & w1 & E).
  exists client, w1.
  enough (exists banner note,
            try_except (dispatch env client args) main_handlers w1 =
              (Returned tt,
               extend w1 [] [OutLine banner; OutJson (JDict [("error", JString note)])]) /\
            (note = "Docker container control operations are not currently supported by the Unraid GraphQL API" \/
             note = "VM control operations are not currently supported by the Unraid GraphQL API"))
    as (banner & note & Hr & Hn).
  { exists banner, note. split; [exact E|]. split; [|exact Hn].
    unfold main, bind. now rewrite E. }
  unfold dispatch.
  first_control_cases H; injection H as <-; try discriminate Ho;
    eexists _, _; (split; [apply fixed_run|]); auto.
Qed.

(** [--stop-vm] with an identifier. *)
Lemma offline_control_sends_nothing_witness :
  let env := sample_env (NetResponse ok_200) (NetResponse ok_200) true in
  let args := sample_control_args [StopVm] (Some "f3a1") "INFO" None in
  exists client w1 banner note,
    make_client env args empty_world = (Returned client, w1) /\
    main env args empty_world =
      (Returned tt,
       extend w1 [] [OutLine banner; OutJson (JDict [("error", JString note)])]) /\
    (note = "Docker container control operations are not currently supported by the Unraid GraphQL API" \/
     note = "VM control operations are not currently supported by the Unraid GraphQL API").
Proof.
  exact (offline_control_sends_nothing
           (sample_env (NetResponse ok_200) (NetResponse ok_200) true)
           (sample_control_args [StopVm] (Some "f3a1") "INFO" None)
           empty_world StopVm eq_refl eq_refl).
Defined.

(** The vocabulary of the dispatcher agrees with the order of the code. *)
Lemma first_control_none (args : Args.t) :
  first_control args = None <-> control_flag_set args = false.
Proof.
  unfold first_control, control_order, control_flag_set. simpl. split.
  - intros H.
    repeat match type of H with
           | (if ?b then _ else _) = _ => destruct b eqn:?; try discriminate H
           end.
    reflexivity.
  - intros H. repeat (apply orb_false_iff in H; destruct H as [H ?]).
    repeat match goal with
           | E : ?b = false |- context [if ?b then _ else _] => rewrite E
           end.
    reflexivity.
Qed.

(** ** Values written into the text of a mutation *)

Lemma append_cons (c : ascii) (s t : string) : String c s +:+ t = String c (s +:+ t).
Proof. reflexivity. Qed.

Lemma split_at_first (c : ascii) (a b x y : string) :
  lacks c a = true -> lacks c b = true ->
  a +:+ String c x = b +:+ String c y ->
  a = b /\ x = y.
Proof.
  revert b. induction a as [|ch a IH]; intros [|ch' b] Ha Hb H.
  - injection H as <-. now split.
  - rewrite append_cons in H. injection H as <- _.
    simpl in Hb. rewrite Ascii.eqb_refl in Hb. discriminate.
  - rewrite append_cons in H. injection H as -> _.
    simpl in Ha. rewrite Ascii.eqb_refl in Ha. discriminate.
  - rewrite !append_cons in H. injection H as <- H.
    simpl in Ha, Hb.
    apply andb_true_iff in Ha as [_ Ha]. apply andb_true_iff in Hb as [_ Hb].
    destruct (IH b Ha Hb H) as [-> ->]. now split.
Qed.

(** X15. Values without a double quote can be read back from the text of
    the mutation that adds a user: two calls that produce the same document
    were given the same name, password and description. *)
Theorem add_user_mutation_injective (n p d n' p' d' : string) :
  lacks "034"%char n = true -> lacks "034"%char p = true -> lacks "034"%char d = true ->
  lacks "034"%char n' = true -> lacks "034"%char p' = true -> lacks "034"%char d' = true ->
  add_user_mutation n p d = add_user_mutation n' p' d' ->
  n = n' /\ p = p' /\ d = d'.
Proof.
  intros Hn Hp Hd Hn' Hp' Hd' H. unfold add_user_mutation, dq in H.
  apply (inj (String.append _)) in H. apply (inj (String.append _)) in H.
  apply (split_at_first _ _ _ _ _ Hn Hn') in H as [-> H].
  apply (inj (String.append _)) in H. apply (inj (String.append _)) in H.
  apply (split_at_first _ _ _ _ _ Hp Hp') in H as [-> H].
  apply (inj (String.append _)) in H. apply (inj (String.append _)) in H.
  apply (split_at_first _ _ _ _ _ Hd Hd') in H as [-> _].
  now repeat split.
Qed.

Lemma add_user_mutation_injective_witness :
  "alice" = "alice" /\ "s3cret" = "s3cret" /\ "operator" = "operator".
Proof.
  exact (add_user_mutation_injective "alice" "s3cret" "operator" "alice" "s3cret" "operator"
           eq_refl eq_refl eq_refl eq_refl eq_refl eq_refl eq_refl).
Defined.

(** X16. Values are written into the text as they are: with a double quote
    in a value, two different calls produce one and the same document, so
    the text of the mutation does not determine its arguments. *)
Theorem add_user_mutation_not_injective :
  ~ (forall n p d n' p' d',
       add_user_mutation n p d = add_user_mutation n' p' d' -> n = n').
Proof.
  intros H.
  pose (tail := "," +:+ nl +:+ "                password: " +:+ dq).
  specialize (H ("x" +:+ dq +:+ tail +:+ "y") "z" EmptyString
                "x" ("y" +:+ dq +:+ tail +:+ "z") EmptyString eq_refl).
  discriminate H.
Qed.

(** ** The roles of an API key *)

Lemma split_comma_not_nil (s : string) : split_comma s <> [].
Proof.
  induction s as [|c s IH]; simpl; [discriminate|].
  destruct (Ascii.eqb c ","); [discriminate|].
  destruct (split_comma s); discriminate.
Qed.

Lemma split_comma_plain (r : string) :
  lacks ","%char r = true -> split_comma r = [r].
Proof.
  induction r as [|c r IH]; intros H; [reflexivity|].
  simpl in *. apply andb_true_iff in H as [Hc Hr].
  destruct (Ascii.eqb c ","); [discriminate|]. now rewrite (IH Hr).
Qed.

Lemma split_comma_app (r x : string) :
  lacks ","%char r = true ->
  split_comma (r +:+ "," +:+ x) = r :: split_comma x.
Proof.
  induction r as [|c r IH]; intros H; [reflexivity|].
  rewrite append_cons. simpl in *. apply andb_true_iff in H as [Hc Hr].
  destruct (Ascii.eqb c ","); [discriminate|]. now rewrite (IH Hr).
Qed.

(** Joining plain roles with commas and splitting them again, as [main]
    does, gives the roles back. *)
Lemma roles_round_trip (roles : list string) :
  roles <> [] -> Forall plain_role roles ->
  map strip (split_comma (String.concat "," roles)) = roles.
Proof.
  intros Hne H. induction H as [|r roles [Hc Hs] H IH]; [congruence|].
  destruct roles as [|r2 roles].
  - simpl. rewrite (split_comma_plain r Hc). simpl. now rewrite Hs.
  - change (String.concat "," (r :: r2 :: roles))
      with (r +:+ "," +:+ String.concat "," (r2 :: roles)).
    rewrite (split_comma_app _ _ Hc). simpl map. rewrite Hs. f_equal.
    apply IH. discriminate.
Qed.

(** X17. When [--create-apikey] is the first control option set and has a
    name, roles listed with commas reach the server as the list of exactly
    these roles: the one request after the probe is the mutation that creates
    the key, with roles: [r1, r2, ...] after the description. *)
Theorem create_apikey_roles (env : Env) (args : Args.t) (w : World)
        (name : string) (roles : list string) :
  first_control args = Some CreateApikey ->
  Args.apikey_name args = Some name ->
  name <> EmptyString ->
  Args.apikey_roles args = Some (String.concat "," roles) ->
  String.concat "," roles <> EmptyString ->
  Forall plain_role roles ->
  exists client w1 out,
    make_client env args w = (Returned client, w1) /\
    snd (main env args w) =
      extend w1
        [query_post env client
           (create_api_key_mutation name (or_empty (Args.description args))
              (", roles: [" +:+ String.concat ", " roles +:+ "]"))]
        out.
Proof.
  intros H Hn Hne Hr Hre Hp.
  destruct (make_client_returns env args w) as (client & w1 & E).
  exists client, w1.
  enough (exists out,
            snd (try_except (dispatch env client args) main_handlers w1)
            = extend w1
                [query_post env client
                   (create_api_key_mutation name (or_empty (Args.description args))
                      (", roles: [" +:+ String.concat ", " roles +:+ "]"))] out)
    as [out Ho].
  { exists out. split; [exact E|]. unfold main, bind. now rewrite E. }
  unfold dispatch.
  first_control_cases H. clear H.
  rewrite Hn, Hr.
  assert (Hroles : roles <> []) by (intros ->; now apply Hre).
  destruct name as [|c name]; [congruence|].
  destruct (String.concat "," roles) as [|c' joined] eqn:Hj; [congruence|].
  cbn [truthy_str negb str_of]. cbv zeta.
  rewrite <- Hj, (roles_round_trip roles Hroles Hp).
  unfold create_api_key.
  destruct roles as [|r roles]; [congruence|].
  apply action_query_trace.
Qed.

Lemma create_apikey_roles_witness :
  let env := sample_env (NetResponse ok_200) (NetResponse ok_200) true in
  exists client w1 out,
    make_client env sample_apikey_args empty_world = (Returned client, w1) /\
    snd (main env sample_apikey_args empty_world) =
      extend w1
        [query_post env client
           (create_api_key_mutation "ci" EmptyString ", roles: [admin, guest]")]
        out.
Proof.
  apply (create_apikey_roles
           (sample_env (NetResponse ok_200) (NetResponse ok_200) true)
           sample_apikey_args empty_world "ci" ["admin"; "guest"]);
    try reflexivity; try discriminate.
  repeat constructor.
Defined.

(** ** A session that follows a redirect *)

(** X18. Without [--direct], once the probe has been answered with a 302
    and a Location, every request [main] sends afterwards goes to that
    Location, and carries the Host, Origin and Referer of its authority when
    the pattern finds one. *)
Theorem redirected_session (env : Env) (args : Args.t) (w : World)
        (r : Response) (location : string) :
  let probe := probe_request env (base_endpoint (Args.ip args) (Args.port args)) in
  Args.direct args = false ->
  transport env (sent w) probe = NetResponse r ->
  status_code r = 302 ->
  CIDict.get "Location" (resp_headers r) = Some location ->
  exists posts,
    sent (snd (main env args w)) = sent w ++ probe :: posts /\
    Forall (fun p =>
              req_method p = POST /\
              req_url p = location /\
              forall authority,
                search_domain location = Some authority ->
                CIDict.get "Host" (req_headers p) = Some authority /\
                CIDict.get "Origin" (req_headers p) = Some ("https://" +:+ authority) /\
                CIDict.get "Referer" (req_headers p)
                = Some ("https://" +:+ authority +:+ "/dashboard"))
           posts.
Proof.
  intros probe Hd Ht Hs Hl.
  set (c0 := mkClient (Args.ip args) (Args.key args) (Args.port args)
                      ("http://" +:+ Args.ip args +:+ ":" +:+ pretty (Args.port args))
                      (base_endpoint (Args.ip args) (Args.port args))
                      None (initial_headers (Args.key args))).
  pose proof (discover_302 env c0 w r location Ht Hs Hl) as E.
  match type of E with
  | _ = (Returned ?c, ?x) => set (client := c) in *; set (w1 := x) in *
  end.
  assert (Em : make_client env args w = (Returned client, w1)).
  { unfold make_client, bind, __init__. fold (base_endpoint (Args.ip args) (Args.port args)).
    fold c0. now rewrite E, Hd. }
  pose proof (sends_try_except _ _ _ (sends_dispatch env client args)
                (sends_main_handlers _)) as Hsends.
  destruct (Hsends w1) as (posts & out & E' & HF).
  exists posts. split.
  - unfold main, bind. rewrite Em, E'. subst w1. simpl. now rewrite <- app_assoc.
  - eapply List.Forall_impl; [|exact HF].
    intros p [q ->]. split; [reflexivity|]. split; [reflexivity|].
    intros authority Ha. unfold query_post, post_request, session_headers. simpl.
    rewrite Ha. simpl. repeat split.
    + rewrite CIDict_get_set_ne by discriminate.
      rewrite CIDict_get_set_ne by discriminate.
      apply CIDict_get_set_eq.
    + rewrite CIDict_get_set_ne by discriminate. apply CIDict_get_set_eq.
    + apply CIDict_get_set_eq.
Qed.

(** The redirect of the sample server, queried for its shares. *)
Lemma redirected_session_witness :
  let env := sample_env (NetResponse found_302) (NetResponse ok_200) true in
  let args := sample_args "shares" false false false None None in
  exists posts,
    sent (snd (main env args empty_world)) = probe_request env sample_url :: posts /\
    Forall (fun p =>
              req_method p = POST /\
              req_url p = "https://host.example/graphql" /\
              forall authority,
                search_domain "https://host.example/graphql" = Some authority ->
                CIDict.get "Host" (req_headers p) = Some authority /\
                CIDict.get "Origin" (req_headers p) = Some ("https://" +:+ authority) /\
                CIDict.get "Referer" (req_headers p)
                = Some ("https://" +:+ authority +:+ "/dashboard"))
           posts.
Proof.
  exact (redirected_session
           (sample_env (NetResponse found_302) (NetResponse ok_200) true)
           (sample_args "shares" false false false None None) empty_world
           found_302 "https://host.example/graphql" eq_refl eq_refl eq_refl eq_refl).
Defined.

(** A custom query given together with [--query all]. *)
Lemma custom_query_runs_alone_witness :
  let env := sample_env (NetResponse ok_200) (NetResponse ok_200) true in
  exists client w1 out,
    make_client env sample_custom_args empty_world = (Returned client, w1) /\
    snd (main env sample_custom_args empty_world)
    = extend w1 [query_post env client "{ online }"] out /\
    req_json (query_post env client "{ online }")
    = Some {[ "query" := JString "{ online }" ]}.
Proof.
  apply (custom_query_runs_alone
           (sample_env (NetResponse ok_200) (NetResponse ok_200) true)
           sample_custom_args empty_world "{ online }").
  - reflexivity.
  - reflexivity.
  - discriminate.
Defined.

(** * The dispatcher, option by option *)

Lemma extend_out (w : World) (out : list Output) :
  extend w [] out = mkWorld (sent w) (stdout w ++ out).
Proof. unfold extend. now rewrite app_nil_r. Qed.

(** What [main] does when the first control option set is [c]: it
    complains about a missing argument, or reports the operation of [c]. *)
Lemma dispatch_first_control (env : Env) (client : UnraidGraphQLClient) (args : Args.t)
      (c : Control) :
  first_control args = Some c ->
  dispatch env client args =
  match missing_argument c args with
  | Some msg => print msg
  | None => report client (control_banner c args) (control_call env client c args)
  end.
Proof.
  intros H. unfold dispatch.
  first_control_cases H; injection H as <-; simpl missing_argument;
    try match goal with
        | |- (if ?b then _ else _) = _ => destruct b
        end;
    reflexivity.
Qed.

(** A report runs its call after the banner and prints what it returns. *)
Lemma report_run (client : UnraidGraphQLClient) (banner : string) (call : M JSON)
      (w : World) :
  try_except (report client banner call) main_handlers w =
  match call (extend w [] [OutLine banner]) with
  | (Returned result, w2) => (Returned tt, extend w2 [] [OutJson result])
  | (Raised e, w2) => main_handlers e w2
  end.
Proof.
  unfold try_except, report, bind, print, pretty_print_response, print_json.
  rewrite extend_out.
  destruct (call _) as [[result|e] w2]; [|reflexivity].
  now rewrite extend_out.
Qed.

(** The operation of a control option sends at most one request, never a
    read query, prints lines only, and lets nothing through but the
    decoder's exception. *)
Lemma query_call_outcome (env : Env) (client : UnraidGraphQLClient) (q : string) (w : World) :
  is_mutation_text q = true ->
  exists o new_sent diagnostics,
    execute_query env client q None w = (o, extend w new_sent diagnostics) /\
    (length new_sent <= 1)%nat /\
    Forall (fun r => exists q0, request_query r = Some q0 /\ ~ In q0 read_query_texts)
           new_sent /\
    Forall is_line diagnostics /\
    match o with
    | Returned _ => True
    | Raised e =>
        json_error_is_request_exception env = false /\
        diagnostics = [] /\ exists msg, e = JSONDecodeError msg
    end.
Proof.
  intros Hq.
  destruct (execute_query_outcome env client q None w) as (o & out & E & Hout & Ho).
  exists o, [post_request env client (build_payload q None)], out.
  split; [exact E|]. split; [simpl; lia|]. split.
  { constructor; [|constructor]. exists q. split; [|now apply mutation_not_read].
    unfold request_query. cbn [req_json post_request].
    now rewrite build_payload_query. }
  split; [exact Hout|].
  destruct Ho as [[doc ->]|(msg & -> & -> & Hl)]; [exact I|eauto].
Qed.

Lemma fixed_call_outcome (env : Env) (doc : JSON) (w : World) :
  exists o new_sent diagnostics,
    ret doc w = (o, extend w new_sent diagnostics) /\
    (length new_sent <= 1)%nat /\
    Forall (fun r => exists q0, request_query r = Some q0 /\ ~ In q0 read_query_texts)
           new_sent /\
    Forall is_line diagnostics /\
    match o with
    | Returned _ => True
    | Raised e =>
        json_error_is_request_exception env = false /\
        diagnostics = [] /\ exists msg, e = JSONDecodeError msg
    end.
Proof.
  exists (Returned doc), [], []. rewrite extend_nothing.
  split; [reflexivity|]. split; [simpl; lia|]. repeat constructor.
Qed.

Lemma control_call_outcome (env : Env) (client : UnraidGraphQLClient) (c : Control)
      (args : Args.t) (w : World) :
  exists o new_sent diagnostics,
    control_call env client c args w = (o, extend w new_sent diagnostics) /\
    (length new_sent <= 1)%nat /\
    Forall (fun r => exists q0, request_query r = Some q0 /\ ~ In q0 read_query_texts)
           new_sent /\
    Forall is_line diagnostics /\
    match o with
    | Returned _ => True
    | Raised e =>
        json_error_is_request_exception env = false /\
        diagnostics = [] /\ exists msg, e = JSONDecodeError msg
    end.
Proof.
  destruct c; simpl control_call;
    first [ apply fixed_call_outcome | apply query_call_outcome; reflexivity ].
Qed.

(** C9 (as amended). When a control or mutating option is set, [main]
    makes its client, acts on the first such option in the order of the code
    and ends normally. If that option lacks an argument it requires, its
    complaint is the only line printed and nothing is sent. Otherwise the
    operation of that option is called once, after its banner; it sends at
    most one request, never a read query, whatever [--query] selects; and
    the result it returns is printed after its diagnostics. Where the
    decoder's exception leaves the operation, the banner is followed by the
    line of the decoding handler instead. *)
Theorem C9_control_flag_runs_one_action (env : Env) (args : Args.t) (w : World) :
  control_flag_set args = true ->
  exists c client w1,
    first_control args = Some c /\
    make_client env args w = (Returned client, w1) /\
    match missing_argument c args with
    | Some msg => main env args w = (Returned tt, extend w1 [] [OutLine msg])
    | None =>
        exists o new_sent diagnostics,
          control_call env client c args (extend w1 [] [OutLine (control_banner c args)])
          = (o, extend w1 new_sent (OutLine (control_banner c args) :: diagnostics)) /\
          (length new_sent <= 1)%nat /\
          Forall (fun r => exists q, request_query r = Some q /\ ~ In q read_query_texts)
                 new_sent /\
          Forall is_line diagnostics /\
          match o with
          | Returned result =>
              main env args w =
                (Returned tt,
                 extend w1 new_sent
                        (OutLine (control_banner c args) :: diagnostics ++ [OutJson result]))
          | Raised _ =>
              json_error_is_request_exception env = false /\
              main env args w =
                (Returned tt,
                 extend w1 new_sent
                        [OutLine (control_banner c args);
                         OutLine "Error decoding the API response"])
          end
    end.
Proof.
  intros H.
  destruct (first_control args) as [c|] eqn:Hc;
    [|apply first_control_none in Hc; congruence].
  destruct (make_client_returns env args w) as (client & w1 & E).
  exists c, client, w1. split; [reflexivity|]. split; [exact E|].
  unfold main, bind. rewrite E, (dispatch_first_control env client args c Hc).
  destruct (missing_argument c args) as [msg|]; [apply refused_run|].
  rewrite report_run.
  destruct (control_call_outcome env client c args
              (extend w1 [] [OutLine (control_banner c args)]))
    as (o & new_sent & diagnostics & Ec & Hlen & Hreq & Hlines & Ho).
  rewrite extend_extend in Ec. simpl in Ec.
  exists o, new_sent, diagnostics. rewrite Ec.
  split; [reflexivity|]. split; [exact Hlen|]. split; [exact Hreq|]. split; [exact Hlines|].
  destruct o as [result|e].
  - rewrite extend_extend, app_nil_r. reflexivity.
  - destruct Ho as (Hl & -> & msg & ->). split; [exact Hl|].
    unfold main_handlers, print, extend. simpl. rewrite <- app_assoc. reflexivity.
Qed.

(** [--reboot] together with [--query all]: the mutation is the only POST
    and its answer is what is printed. *)
Lemma C9_control_flag_runs_one_action_witness :
  let env := sample_env (NetResponse ok_200) (NetResponse ok_200) true in
  let args := sample_args "all" false true false None None in
  exists c client w1,
    first_control args = Some c /\
    make_client env args empty_world = (Returned client, w1) /\
    match missing_argument c args with
    | Some msg => main env args empty_world = (Returned tt, extend w1 [] [OutLine msg])
    | None =>
        exists o new_sent diagnostics,
          control_call env client c args (extend w1 [] [OutLine (control_banner c args)])
          = (o, extend w1 new_sent (OutLine (control_banner c args) :: diagnostics)) /\
          (length new_sent <= 1)%nat /\
          Forall (fun r => exists q, request_query r = Some q /\ ~ In q read_query_texts)
                 new_sent /\
          Forall is_line diagnostics /\
          match o with
          | Returned result =>
              main env args empty_world =
                (Returned tt,
                 extend w1 new_sent
                        (OutLine (control_banner c args) :: diagnostics ++ [OutJson result]))
          | Raised _ =>
              json_error_is_request_exception env = false /\
              main env args empty_world =
                (Returned tt,
                 extend w1 new_sent
                        [OutLine (control_banner c args);
                         OutLine "Error decoding the API response"])
          end
    end.
Proof.
  exact (C9_control_flag_runs_one_action
           (sample_env (NetResponse ok_200) (NetResponse ok_200) true)
           (sample_args "all" false true false None None) empty_world eq_refl).
Defined.

(** * Decoding errors and the handlers of [main] *)

Lemma returns_ret {A : Type} (a : A) : returns (ret a).
Proof. intros w. now exists a, w. Qed.

Lemma returns_print (s : string) : returns (print s).
Proof. intros w. unfold print. eauto. Qed.

Lemma returns_bind {A B : Type} (m : M A) (k : A -> M B) :
  returns m -> (forall a, returns (k a)) -> returns (bind m k).
Proof.
  intros Hm Hk w. unfold bind.
  destruct (Hm w) as (a & w1 & ->). apply Hk.
Qed.

Lemma returns_report (client : UnraidGraphQLClient) (banner : string) (call : M JSON) :
  returns call -> returns (report client banner call).
Proof.
  intros H. unfold report. apply returns_bind; [apply returns_print|]. intros _.
  apply returns_bind; [exact H|]. intros doc w.
  unfold pretty_print_response, print_json. eauto.
Qed.

Section ReturnsFacts.
Variable env : Env.
Variable client : UnraidGraphQLClient.
Hypothesis modern : json_error_is_request_exception env = true.

Lemma returns_execute_query (q : string) (variables : option (list (string * JSON))) :
  returns (execute_query env client q variables).
Proof.
  intros w.
  destruct (execute_query_outcome env client q variables w) as (o & out & E & _ & Ho).
  destruct Ho as [[doc ->]|(msg & _ & _ & Hl)]; [eauto|congruence].
Qed.

(** With a [requests] whose decoding error is a [RequestException], nothing
    is ever raised to [main]: its handlers are never reached. *)
Lemma returns_dispatch (args : Args.t) : returns (dispatch env client args).
Proof.
  unfold dispatch, read_queries.
  repeat match goal with
         | |- returns (if ?b then _ else _) => destruct b
         | |- returns (print _) => apply returns_print
         | |- returns (ret _) => apply returns_ret
         | |- returns (bind _ _) => apply returns_bind; [|intros _]
         | |- returns (report _ _ (start_docker_container _ _)) =>
             apply returns_report, returns_ret
         | |- returns (report _ _ (stop_docker_container _ _)) =>
             apply returns_report, returns_ret
         | |- returns (report _ _ (restart_docker_container _ _)) =>
             apply returns_report, returns_ret
         | |- returns (report _ _ (start_vm _ _)) => apply returns_report, returns_ret
         | |- returns (report _ _ (stop_vm _ _ _)) => apply returns_report, returns_ret
         | |- returns (report _ _ (pause_vm _ _)) => apply returns_report, returns_ret
         | |- returns (report _ _ (resume_vm _ _)) => apply returns_report, returns_ret
         | |- returns (report _ _ _) => apply returns_report, returns_execute_query
         end.
Qed.

End ReturnsFacts.

(** C4, what the code does. For a 2xx response a body that decodes is
    returned as decoded. For a body that does not decode, the program has a
    handler of its own in [main], which prints "Error decoding the API
    response"; but where [requests] raises its decoding error as a
    [RequestException], the executor catches it first and returns the generic
    error record with the decoder's message, printed like any failed request,
    and no run of [main] ever reaches its handlers. Only where
    [json.JSONDecodeError] comes through does the exception leave the executor
    and meet the handler. [main] ends normally in every case. *)
Theorem C4_success_body_decoding (env : Env) (self : UnraidGraphQLClient)
        (query : string) (variables : option (list (string * JSON))) (w : World)
        (r : Response) :
  let req := post_request env self (build_payload query variables) in
  transport env (sent w) req = NetResponse r ->
  is_success_status (status_code r) = true ->
  match json_body r with
  | JsonOk doc =>
      execute_query env self query variables w = (Returned doc, extend w [req] [])
  | JsonInvalid msg =>
      if json_error_is_request_exception env
      then execute_query env self query variables w =
             (Returned (JDict [("error", JString msg)]),
              extend w [req] [OutLine ("Error making the request: " +:+ msg)]) /\
           forall client args w0,
           exists w1, dispatch env client args w0 = (Returned tt, w1)
      else execute_query env self query variables w =
             (Raised (JSONDecodeError msg), extend w [req] []) /\
           forall w',
             main_handlers (JSONDecodeError msg) w' =
               (Returned tt, extend w' [] [OutLine "Error decoding the API response"])
  end /\
  forall args w0, exists w1, main env args w0 = (Returned tt, w1).
Proof.
  intros req H Hs. split; [|intros; apply main_returns].
  assert (Hn : http_error_msg r = None).
  { apply http_error_msg_none. unfold is_success_status in Hs.
    apply andb_true_iff in Hs as [_ Hs]. apply Z.ltb_lt in Hs. lia. }
  rewrite execute_query_cases. fold req. rewrite H, Hn.
  destruct (json_body r) as [doc|msg]; [reflexivity|].
  destruct (json_error_is_request_exception env) eqn:Hm.
  - split; [reflexivity|]. intros client args w0.
    destruct (returns_dispatch env client Hm args w0) as ([] & w1 & E). eauto.
  - split; [reflexivity|]. intros w'. unfold extend. simpl. now rewrite app_nil_r.
Qed.

(** A 200 whose body is an HTML page, under a current [requests]. *)
Lemma C4_success_body_decoding_witness :
  let env := sample_env (NetResponse ok_200) (NetResponse html_200) true in
  let req := post_request env sample_client (build_payload get_vms_query None) in
  (execute_query env sample_client get_vms_query None empty_world =
     (Returned (JDict [("error", JString "Expecting value: line 1 column 1 (char 0)")]),
      mkWorld [req]
        [OutLine "Error making the request: Expecting value: line 1 column 1 (char 0)"]) /\
   forall client args w0,
   exists w1, dispatch env client args w0 = (Returned tt, w1)) /\
  forall args w0, exists w1, main env args w0 = (Returned tt, w1).
Proof.
  exact (C4_success_body_decoding
           (sample_env (NetResponse ok_200) (NetResponse html_200) true)
           sample_client get_vms_query None empty_world html_200 eq_refl eq_refl).
Defined.
